(** * paralympics_app: application factory, data loader and dashboard guard

    A shallow embedding of [paralympics_app/__init__.py].  The module wires a
    Flask application, loads two CSV files into database tables with pandas
    and wraps the Dash views with Flask-Login's [login_required].

    The functions of the module ([create_app], [add_noc_data],
    [add_medals_data], [register_dashapp], [_protect_dash_views]) are
    translated statement by statement.  The library calls they make (pandas,
    Flask, Dash, Flask-Login, Flask-WTF) are modelled by the part of their
    behaviour the module relies on; each such model says so. *)

From Stdlib Require Import ZArith Ascii Sorted.
From stdpp Require Import base option list strings gmap fin_maps.

Open Scope string_scope.
Open Scope list_scope.
Open Scope stdpp_scope.

(** ** Exceptions and the effect monad *)

(** The exception classes the modelled calls raise. *)
Inductive exn :=
  | FileNotFoundError
  | PermissionError
  | ParserError
  | ValueError
  | KeyError
  | RuntimeError
  | ImportError
  | AssertionError.

#[global] Instance exn_eq_dec : EqDecision exn.
Proof. solve_decision. Defined.


Inductive result (A : Type) :=
  | Ok (a : A)
  | Raise (e : exn).
Arguments Ok {A} a.
Arguments Raise {A} e.

(** ** pandas: the part of [DataFrame] the loaders use *)

Module Pandas.

(** A cell of a frame: a missing value, a text or an integer. *)
Inductive cell :=
  | NaN
  | Str (s : string)
  | Int (z : Z).

#[global] Instance cell_eq_dec : EqDecision cell.
Proof. solve_decision. Defined.

Definition notna (c : cell) : bool :=
  match c with NaN => false | _ => true end.

(** The texts [read_csv] takes for a missing value by default. *)
Definition na_values : list string :=
  [ ""; "#N/A"; "#N/A N/A"; "#NA"; "-1.#IND"; "-1.#QNAN"; "-NaN"; "-nan";
    "1.#IND"; "1.#QNAN"; "<NA>"; "N/A"; "NA"; "NULL"; "NaN";
    "n/a"; "nan"; "null" ].

Definition is_na (s : string) : bool := bool_decide (s ∈ na_values).

(** The cell read from a text field.  Numeric conversion of a column is not
    modelled: the fields that are not missing stay texts. *)
Definition field (s : string) : cell :=
  if is_na s then NaN else Str s.

(** A frame: its column labels, and its rows, each with its index label. *)
Record DataFrame := {
  columns : list string;
  rows : list (Z * list cell)
}.

(** The content of a CSV file that pandas parses: the header, with the
    column labels as pandas makes them (distinct), and the fields of each
    data line. *)
Record Csv := {
  header : list string;
  lines : list (list string)
}.

(** The positions and labels of the columns [usecols] keeps, in file order. *)
Definition select_columns (usecols : option (list string)) (hd : list string)
  : list (nat * string) :=
  match usecols with
  | None => imap pair hd
  | Some cols => filter (λ ic, ic.2 ∈ cols) (imap pair hd)
  end.

(** A line shorter than the header is filled with missing values. *)
Definition parse_line (sel : list (nat * string)) (line : list string) : list cell :=
  (λ ic : nat * string, field (default "" (line !! ic.1))) <$> sel.

(** The frame of a parsed file, with the default [RangeIndex]. *)
Definition parse (usecols : option (list string)) (f : Csv) : DataFrame :=
  let sel := select_columns usecols (header f) in
  {| columns := sel.*2;
     rows := imap (λ i line, (Z.of_nat i, parse_line sel line)) (lines f) |}.

(** [df.dropna(axis=0, inplace=True)]: rows with any missing value go. *)
Definition dropna (df : DataFrame) : DataFrame :=
  {| columns := columns df;
     rows := filter (λ r, forallb notna r.2 = true) (rows df) |}.

(** Position of a label among the columns. *)
Fixpoint get_loc (c : string) (cols : list string) : option nat :=
  match cols with
  | [] => None
  | c' :: cols => if decide (c = c') then Some 0 else S <$> get_loc c cols
  end.

Fixpoint keep_first {K} `{EqDecision K} (key : list cell → K) (seen : list K)
    (rs : list (Z * list cell)) : list (Z * list cell) :=
  match rs with
  | [] => []
  | r :: rs =>
      if decide (key r.2 ∈ seen) then keep_first key seen rs
      else r :: keep_first key (key r.2 :: seen) rs
  end.

(** [df.drop_duplicates(subset=[c], keep='first', inplace=True)];
    [None] stands for the [KeyError] of a label that is no column. *)
Definition drop_duplicates (c : string) (df : DataFrame) : option DataFrame :=
  k ← get_loc c (columns df);
  Some {| columns := columns df;
          rows := keep_first (λ r, default NaN (r !! k)) [] (rows df) |}.

(** [df.reset_index(drop=True, inplace=True)] *)
Definition reset_index (df : DataFrame) : DataFrame :=
  {| columns := columns df;
     rows := imap (λ i r, (Z.of_nat i, r.2)) (rows df) |}.

(** [df[c] = df.index]: an existing column is overwritten in place, a new
    one is added last. *)
Definition set_column_index (c : string) (df : DataFrame) : DataFrame :=
  match get_loc c (columns df) with
  | Some k =>
      {| columns := columns df;
         rows := (λ r : Z * list cell, (r.1, <[k := Int r.1]> r.2)) <$> rows df |}
  | None =>
      {| columns := columns df ++ [c];
         rows := (λ r : Z * list cell, (r.1, r.2 ++ [Int r.1])) <$> rows df |}
  end.

(** A database table, as [to_sql(..., index=False)] writes it: the columns
    of the frame and the values of its rows, without the index. *)
Record Table := {
  tbl_columns : list string;
  tbl_rows : list (list cell)
}.

Definition to_table (df : DataFrame) : Table :=
  {| tbl_columns := columns df; tbl_rows := (rows df).*2 |}.

End Pandas.

Import Pandas.

(** ** The process: files, databases and the module's global objects *)

(** A file that [read_csv] opens. *)
Inductive file :=
  | Unreadable            (* exists, cannot be opened *)
  | Malformed             (* opens, pandas cannot parse it *)
  | Content (c : Csv).

(** A [flask_sqlalchemy.SQLAlchemy] object; [sa_id] names its database. *)
Record SQLAlchemy := { sa_id : nat }.

(** The library calls the module makes, in the order it makes them. *)
Inductive event :=
  | EFlask (import_name : string)
  | EFromObject (name : string)
  | EDash (url_base_pathname : string)
  | EPushContext
  | EPopContext
  | ERegisterCallbacks
  | ECsrfInit
  | EDbInit
  | ELoginInit
  | EConfigureUploads
  | ECreateAll
  | EReadCsv (filename : string)
  | EToSql (con : nat) (name : string)
  | ERegisterBlueprint (name : string).

#[global] Instance event_eq_dec : EqDecision event.
Proof. solve_decision. Defined.

Record World := {
  fs : gmap string file;                      (* the files, by path *)
  databases : gmap nat (gmap string Table);   (* the tables of each database *)
  app_ctx : nat;                              (* active application contexts *)
  csrf_exempt_views : gset string;            (* [csrf._exempt_views] *)
  login_view : option string;                 (* [login_manager.login_view] *)
  trace : list event
}.

(** The tables of the database of [d]. *)
Definition tables_of (d : SQLAlchemy) (w : World) : gmap string Table :=
  default ∅ (databases w !! sa_id d).

Definition log (e : event) (w : World) : World :=
  {| fs := fs w; databases := databases w; app_ctx := app_ctx w;
     csrf_exempt_views := csrf_exempt_views w; login_view := login_view w;
     trace := trace w ++ [e] |}.

Definition set_app_ctx (n : nat) (w : World) : World :=
  {| fs := fs w; databases := databases w; app_ctx := n;
     csrf_exempt_views := csrf_exempt_views w; login_view := login_view w;
     trace := trace w |}.

Definition set_login_view (v : string) (w : World) : World :=
  {| fs := fs w; databases := databases w; app_ctx := app_ctx w;
     csrf_exempt_views := csrf_exempt_views w; login_view := Some v;
     trace := trace w |}.

Definition set_tables (con : nat) (t : gmap string Table) (w : World) : World :=
  {| fs := fs w; databases := <[con := t]> (databases w); app_ctx := app_ctx w;
     csrf_exempt_views := csrf_exempt_views w; login_view := login_view w;
     trace := trace w |}.

(** Computations: they read and change the process and may raise.  The
    changes made before an exception stay, as in Python. *)
Definition M (A : Type) : Type := World → result A * World.

#[global] Instance M_ret : MRet M := λ A a w, (Ok a, w).
#[global] Instance M_bind : MBind M := λ A B f m w,
  match m w with
  | (Ok a, w') => f a w'
  | (Raise e, w') => (Raise e, w')
  end.

Definition raise {A} (e : exn) : M A := λ w, (Raise e, w).
Definition gets {A} (f : World → A) : M A := λ w, (Ok (f w), w).
Definition modify (f : World → World) : M unit := λ w, (Ok (), f w).
Definition tell (e : event) : M unit := modify (log e).
Definition lift {A} (r : result A) : M A := λ w, (r, w).

#[global] Instance result_ret : MRet result := λ A a, Ok a.
#[global] Instance result_bind : MBind result := λ A B f r,
  match r with
  | Ok a => f a
  | Raise e => Raise e
  end.

(** [with app.app_context(): body]: the context is pushed on entry and popped
    on exit, also when [body] raises. *)
Definition with_app_context {A} (body : M A) : M A := λ w,
  let w := log EPushContext (set_app_ctx (S (app_ctx w)) w) in
  let '(r, w) := body w in
  (r, log EPopContext (set_app_ctx (pred (app_ctx w)) w)).

(** [pd.read_csv(filename, usecols=...)] *)
Definition read_csv (filename : string) (usecols : option (list string)) : M DataFrame :=
  tell (EReadCsv filename) ;;
  f ← gets (λ w, fs w !! filename);
  match f with
  | None => raise FileNotFoundError
  | Some Unreadable => raise PermissionError
  | Some Malformed => raise ParserError
  | Some (Content c) =>
      match usecols with
      | Some cols =>
          if bool_decide (cols ⊆ header c) then mret (parse usecols c)
          else raise ValueError
      | None => mret (parse None c)
      end
  end.

(** [d.engine]: needs an active application context. *)
Definition engine (d : SQLAlchemy) : M nat :=
  n ← gets app_ctx;
  if decide (n = 0) then raise RuntimeError else mret (sa_id d).

(** [df.to_sql(name=name, con=con, if_exists='replace', index=False)]: the
    table of that name, if any, is dropped and the frame is written. *)
Definition to_sql (df : DataFrame) (name : string) (con : nat) : M unit :=
  tell (EToSql con name) ;;
  modify (λ w, set_tables con (<[name := to_table df]> (default ∅ (databases w !! con))) w).

(** ** The module: globals and the data loader *)

(** [db = SQLAlchemy()] *)
Definition db : SQLAlchemy := {| sa_id := 0 |}.

(** [Path(__file__).parent] *)
Definition module_dir : string := "paralympics_app".

Definition joinpath (p : string) (parts : list string) : string :=
  foldl (λ acc part, acc +:+ "/" +:+ part) p parts.

Definition add_noc_data (db_name : SQLAlchemy) : M unit :=
  let filename := joinpath module_dir ["data"; "noc_regions.csv"] in
  df ← read_csv filename (Some ["region"]);
  let df := dropna df in
  df ← match drop_duplicates "region" df with
       | Some df => mret df
       | None => raise KeyError
       end;
  let df := reset_index df in
  let df := set_column_index "id" df in
  con ← engine db;
  to_sql df "region" con.

Definition add_medals_data (db_name : SQLAlchemy) : M unit :=
  let filename := joinpath module_dir ["data"; "all_medals.csv"] in
  df ← read_csv filename None;
  let df := dropna df in
  let df := set_column_index "id" df in
  con ← engine db;
  to_sql df "medals" con.

(** ** Flask: views, the application object and blueprints *)

(** A view function: a handler of some module, or one that [login_required]
    has decorated. *)
Inductive view :=
  | Handler (module_ name_ : string)
  | login_required (func : view).

#[global] Instance view_eq_dec : EqDecision view.
Proof. solve_decision. Defined.

(** [view.__module__ + "." + view.__name__]; [login_required] decorates with
    [functools.wraps], which copies both attributes. *)
Fixpoint dest (v : view) : string :=
  match v with
  | Handler m n => m +:+ "." +:+ n
  | login_required func => dest func
  end.

(** Values of configuration keys. *)
Inductive pyval :=
  | PyNone
  | PyBool (b : bool)
  | PyStr (s : string)
  | PyStrs (l : list string).

Definition truthy (v : pyval) : bool :=
  match v with
  | PyNone => false
  | PyBool b => b
  | PyStr s => negb (bool_decide (s = ""))
  | PyStrs l => negb (bool_decide (l = []))
  end.

Record Rule := {
  rule : string;
  endpoint : string;
  methods : list string
}.

#[global] Instance Rule_eq_dec : EqDecision Rule.
Proof. solve_decision. Defined.

Record Flask := {
  import_name : string;
  config : gmap string pyval;
  url_map : list Rule;
  view_functions : gmap string view;
  blueprints : list string;
  extensions : list string
}.

Definition set_config (c : gmap string pyval) (app : Flask) : Flask :=
  {| import_name := import_name app; config := c; url_map := url_map app;
     view_functions := view_functions app; blueprints := blueprints app;
     extensions := extensions app |}.

Definition set_url_map (m : list Rule) (app : Flask) : Flask :=
  {| import_name := import_name app; config := config app; url_map := m;
     view_functions := view_functions app; blueprints := blueprints app;
     extensions := extensions app |}.

Definition set_view_functions (vf : gmap string view) (app : Flask) : Flask :=
  {| import_name := import_name app; config := config app; url_map := url_map app;
     view_functions := vf; blueprints := blueprints app;
     extensions := extensions app |}.

Definition set_blueprints (b : list string) (app : Flask) : Flask :=
  {| import_name := import_name app; config := config app; url_map := url_map app;
     view_functions := view_functions app; blueprints := b;
     extensions := extensions app |}.

Definition set_extensions (x : list string) (app : Flask) : Flask :=
  {| import_name := import_name app; config := config app; url_map := url_map app;
     view_functions := view_functions app; blueprints := blueprints app;
     extensions := x |}.

(** [Flask(import_name)]: a new application serves its static folder. *)
Definition new_Flask (name : string) : Flask :=
  {| import_name := name;
     config := ∅;
     url_map := [ {| rule := "/static/<path:filename>"; endpoint := "static";
                     methods := ["GET"] |} ];
     view_functions := {[ "static" := Handler "flask.app" "send_static_file" ]};
     blueprints := [];
     extensions := [] |}.

(** [app.add_url_rule(rule, endpoint=endpoint, view_func=view_func,
    methods=methods)]: the rule is added, then the view is bound to the
    endpoint unless another view is. *)
Definition add_url_rule (r e : string) (view_func : view) (ms : list string)
    (app : Flask) : result Flask :=
  let app := set_url_map (url_map app ++ [ {| rule := r; endpoint := e; methods := ms |} ]) app in
  match view_functions app !! e with
  | Some old_func =>
      if decide (old_func = view_func) then Ok app else Raise AssertionError
  | None => Ok (set_view_functions (<[e := view_func]> (view_functions app)) app)
  end.

Record Route := {
  rt_rule : string;
  rt_endpoint : string;
  rt_view : view;
  rt_methods : list string
}.

Record Blueprint := {
  bp_name : string;
  url_prefix : string;
  static_url_path : option string;
  deferred : list Route
}.

Fixpoint add_routes (prefix name : string) (rts : list Route) (app : Flask) : result Flask :=
  match rts with
  | [] => Ok app
  | rt :: rts =>
      app ← add_url_rule (prefix +:+ rt_rule rt) (name +:+ "." +:+ rt_endpoint rt)
              (rt_view rt) (rt_methods rt) app;
      add_routes prefix name rts app
  end.

(** [app.register_blueprint(bp)]: a name registered before is refused; the
    routes of the blueprint get its prefix, their endpoints its name. *)
Definition register_blueprint (bp : Blueprint) (app : Flask) : result Flask :=
  if decide (bp_name bp ∈ blueprints app) then Raise ValueError
  else
    let app := set_blueprints (blueprints app ++ [bp_name bp]) app in
    let static :=
      match static_url_path bp with
      | Some p => [ {| rt_rule := p +:+ "/<path:filename>"; rt_endpoint := "static";
                       rt_view := Handler "flask.blueprints" "send_static_file";
                       rt_methods := ["GET"] |} ]
      | None => []
      end in
    add_routes (url_prefix bp) (bp_name bp) (static ++ deferred bp) app.

(** ** Flask-Login and Flask-WTF: what a request meets *)

Record Request := {
  method : string;
  req_endpoint : option string;
  url : string;
  is_authenticated : bool      (* [current_user.is_authenticated] *)
}.

Inductive Response :=
  | Served (module_ name_ : string)             (* the handler's own response *)
  | Redirect (login_view : string) (next : string)
  | HttpError (code : nat).

Definition EXEMPT_METHODS : list string := ["OPTIONS"].

(** [login_manager.unauthorized()], with no handler of its own installed. *)
Definition unauthorized (w : World) (req : Request) : Response :=
  match login_view w with
  | Some v => Redirect v (url req)
  | None => HttpError 401
  end.

(** Calling a view for a request. *)
Fixpoint call (w : World) (app : Flask) (v : view) (req : Request) : Response :=
  match v with
  | Handler m n => Served m n
  | login_required func =>
      if bool_decide (method req ∈ EXEMPT_METHODS)
         || from_option truthy false (config app !! "LOGIN_DISABLED")
      then call w app func req
      else if negb (is_authenticated req) then unauthorized w req
      else call w app func req
  end.

(** The [before_request] hook of [CSRFProtect]: [true] when the request has
    to carry a valid token ([self.protect()] is reached). *)
Definition csrf_protect (w : World) (app : Flask) (req : Request) : bool :=
  if negb (from_option truthy true (config app !! "WTF_CSRF_ENABLED")) then false
  else if negb (from_option truthy true (config app !! "WTF_CSRF_CHECK_DEFAULT")) then false
  else if negb (bool_decide (method req ∈
            match config app !! "WTF_CSRF_METHODS" with
            | Some (PyStrs l) => l
            | _ => ["POST"; "PUT"; "PATCH"; "DELETE"]
            end)) then false
  else match req_endpoint req ≫= (λ e, view_functions app !! e) with
       | None => false
       | Some v => negb (bool_decide (dest v ∈ csrf_exempt_views w))
       end.

(** ** Dash: the application object and the routes it registers *)

Record DashConfig := { routes_pathname_prefix : string }.

Record Dash := {
  server : Flask;
  dash_config : DashConfig;
  title : string;
  layout : string;
  callback_map : list string
}.

Definition set_server (app : Flask) (d : Dash) : Dash :=
  {| server := app; dash_config := dash_config d; title := title d;
     layout := layout d; callback_map := callback_map d |}.

(** [s.replace(a, b)] for one-character [a] and [b]. *)
Fixpoint replace (a b : ascii) (s : string) : string :=
  match s with
  | EmptyString => EmptyString
  | String c s => String (if decide (c = a) then b else c) (replace a b s)
  end.

(** The routes of [Dash._setup_routes]: name, view and methods, each given to
    [Dash._add_url]. *)
Definition dash_routes : list (string * view * list string) :=
  [ ("_dash-component-suites/<string:package_name>/<path:fingerprinted_path>",
     Handler "dash.dash" "serve_component_suites", ["GET"]);
    ("_dash-layout", Handler "dash.dash" "serve_layout", ["GET"]);
    ("_dash-dependencies", Handler "dash.dash" "dependencies", ["GET"]);
    ("_dash-update-component", Handler "dash.dash" "dispatch", ["POST"]);
    ("_reload-hash", Handler "dash.dash" "serve_reload_hash", ["GET"]);
    ("_favicon.ico", Handler "dash.dash" "_serve_default_favicon", ["GET"]);
    ("", Handler "dash.dash" "index", ["GET"]);
    ("<path:path>", Handler "dash.dash" "index", ["GET"]) ].

(** [Dash._add_url]: path and endpoint are both the prefixed name. *)
Definition _add_url (prefix : string) (app : Flask) (r : string * view * list string)
    : result Flask :=
  let full_name := prefix +:+ r.1.1 in
  add_url_rule full_name full_name r.1.2 r.2 app.

Fixpoint _setup_routes (prefix : string) (rs : list (string * view * list string))
    (app : Flask) : result Flask :=
  match rs with
  | [] => Ok app
  | r :: rs => app ← _add_url prefix app r; _setup_routes prefix rs app
  end.

(** [dash.Dash(name, server=app, url_base_pathname=p, ...)]: the blueprint of
    the assets is registered on the server, then the routes of Dash. *)
Definition new_Dash (app : Flask) (url_base_pathname : string) : result Dash :=
  let prefix := url_base_pathname in
  let bp_prefix := replace "."%char "_"%char (replace "/"%char "_"%char prefix) in
  app ← register_blueprint
          {| bp_name := bp_prefix +:+ "dash_assets"; url_prefix := "";
             static_url_path := Some (prefix +:+ "assets"); deferred := [] |} app;
  app ← _setup_routes prefix dash_routes app;
  Ok {| server := app; dash_config := {| routes_pathname_prefix := prefix |};
        title := "Dash"; layout := ""; callback_map := [] |}.

(** Python visits the keys of [view_functions] in insertion order; the
    result of the loop does not depend on the order, and the keys are visited
    here in the order of the map.  [alter] is the assignment
    [d[k] = login_required(d[k])] for a key [k] of [d]. *)
Definition _protect_dash_views (dash_app : Dash) : Dash :=
  let prefix := routes_pathname_prefix (dash_config dash_app) in
  let vf :=
    foldl (λ (d : gmap string view) view_func,
             if String.prefix prefix view_func
             then alter login_required view_func d
             else d)
          (view_functions (server dash_app))
          (map_to_list (view_functions (server dash_app))).*1 in
  set_server (set_view_functions vf (server dash_app)) dash_app.

(** The tables of [declared] that a database lacks, created empty. *)
Definition create_missing (declared : list (string * list string))
    (tables : gmap string Table) : gmap string Table :=
  foldl (λ (t : gmap string Table) nc,
           match t !! nc.1 with
           | Some _ => t
           | None => <[nc.1 := {| tbl_columns := nc.2; tbl_rows := [] |}]> t
           end)
        tables declared.

(** ** The parts of the package outside this module *)

Record Env := {
  (* the configuration classes that can be imported, with their settings *)
  config_objects : gmap string (gmap string pyval);
  (* the tables [paralympics_app.models] declares: name and columns *)
  models_metadata : list (string * list string);
  (* [paralympic_dash_app.layout.layout] *)
  layout_layout : string;
  (* the callbacks [paralympic_dash_app.callbacks.register_callbacks] adds *)
  callbacks : list string;
  (* [main.routes.main_bp] and [auth.routes.auth_bp] *)
  main_bp : Blueprint;
  auth_bp : Blueprint
}.

Section App.
Context (env : Env).

(** [app.config.from_object(name)] *)
Definition from_object (name : string) (app : Flask) : M Flask :=
  tell (EFromObject name) ;;
  match config_objects env !! name with
  | Some settings => mret (set_config (settings ∪ config app) app)
  | None => raise ImportError
  end.

(** [ext.init_app(app)] of an extension: it is recorded on the application. *)
Definition init_app (e : event) (name : string) (app : Flask) : M Flask :=
  tell e ;; mret (set_extensions (extensions app ++ [name]) app).

(** [configure_uploads(app, upload_sets=[photos])] *)
Definition configure_uploads (app : Flask) : M Flask :=
  init_app EConfigureUploads "uploads" app.

(** [register_callbacks(dashapp)] *)
Definition register_callbacks (dashapp : Dash) : M Dash :=
  tell ERegisterCallbacks ;;
  mret {| server := server dashapp; dash_config := dash_config dashapp;
          title := title dashapp; layout := layout dashapp;
          callback_map := callback_map dashapp ++ callbacks env |}.

(** [d.create_all()]: the declared tables that are absent are created. *)
Definition create_all (d : SQLAlchemy) : M unit :=
  tell ECreateAll ;;
  con ← engine d;
  modify (λ w,
    set_tables con
      (create_missing (models_metadata env) (default ∅ (databases w !! con))) w).

(** The application object is changed in place by the source; here each
    function returns the changed object. *)
Definition register_dashapp (app : Flask) : M Flask :=
  dashapp ← (tell (EDash "/dashboard/") ;; lift (new_Dash app "/dashboard/"));
  dashapp ← with_app_context (
    let dashapp :=
      {| server := server dashapp; dash_config := dash_config dashapp;
         title := "Dashboard"; layout := layout_layout env;
         callback_map := callback_map dashapp |} in
    register_callbacks dashapp);
  mret (server (_protect_dash_views dashapp)).

Definition create_app (config_class_name : string) : M Flask :=
  app ← (tell (EFlask "paralympics_app") ;; mret (new_Flask "paralympics_app"));
  app ← from_object config_class_name app;
  app ← register_dashapp app;
  app ← init_app ECsrfInit "csrf" app;
  app ← init_app EDbInit "sqlalchemy" app;
  modify (set_login_view "auth.login") ;;
  app ← init_app ELoginInit "login_manager" app;
  app ← configure_uploads app;
  with_app_context (
    (* the models are imported here: their tables are the declared ones *)
    create_all db ;;
    add_noc_data db ;;
    add_medals_data db) ;;
  app ← (tell (ERegisterBlueprint (bp_name (main_bp env))) ;;
         lift (register_blueprint (main_bp env) app));
  app ← (tell (ERegisterBlueprint (bp_name (auth_bp env))) ;;
         lift (register_blueprint (auth_bp env) app));
  mret app.

End App.

(** The state of the process once the module is imported: [csrf], with the
    view of Dash's dispatch exempted, [db] and [login_manager].  The upload
    set [photos] holds no state the functions below read. *)
Definition import_module (files : gmap string file)
    (dbs : gmap nat (gmap string Table)) : World :=
  let _exempt_views : gset string := ∅ in
  let _exempt_views := _exempt_views ∪ {[ "dash.dash.dispatch" ]} in
  {| fs := files; databases := dbs; app_ctx := 0;
     csrf_exempt_views := _exempt_views; login_view := None; trace := [] |}.

(** ** Vocabulary of the statements *)

(** The paths of the two bundled files. *)
Definition noc_regions_csv : string := "paralympics_app/data/noc_regions.csv".
Definition all_medals_csv : string := "paralympics_app/data/all_medals.csv".



(** The values of a column of a table. *)
Definition column_values (label : string) (t : Table) : option (list cell) :=
  k ← get_loc label (tbl_columns t);
  Some ((λ r : list cell, default NaN (r !! k)) <$> tbl_rows t).

(** The frames the two loaders write, as functions of the file alone. *)
Definition region_frame (c : Csv) : option DataFrame :=
  df ← drop_duplicates "region" (dropna (parse (Some ["region"]) c));
  Some (set_column_index "id" (reset_index df)).

Definition medals_frame (c : Csv) : DataFrame :=
  set_column_index "id" (dropna (parse None c)).

(** A table written in place of the one of that name. *)
Definition write (con : nat) (name : string) (t : Table) (w : World) : World :=
  set_tables con (<[name := t]> (default ∅ (databases w !! con))) w.

(** The exception [read_csv] raises for a file, if any. *)
Definition read_error (usecols : option (list string)) (f : option file) : option exn :=
  match f with
  | None => Some FileNotFoundError
  | Some Unreadable => Some PermissionError
  | Some Malformed => Some ParserError
  | Some (Content c) =>
      match usecols with
      | Some cols => if bool_decide (cols ⊆ header c) then None else Some ValueError
      | None => None
      end
  end.


(** The body of the loop of [_protect_dash_views]. *)
Definition protect_step (prefix : string) (d : gmap string view) (view_func : string)
    : gmap string view :=
  if String.prefix prefix view_func then alter login_required view_func d else d.

(** The process after some more library calls. *)
Definition logs (evs : list event) (w : World) : World :=
  {| fs := fs w; databases := databases w; app_ctx := app_ctx w;
     csrf_exempt_views := csrf_exempt_views w; login_view := login_view w;
     trace := trace w ++ evs |}.

(** The Dash object as [register_dashapp] has set it up before the wrapping
    pass. *)
Definition mounted (env : Env) (d : Dash) : Dash :=
  {| server := server d; dash_config := dash_config d; title := "Dashboard";
     layout := layout_layout env; callback_map := callback_map d ++ callbacks env |}.

(** The reading of the specification: every route whose path starts with
    [/dashboard/] answers a request without a session by a redirect to the
    login view. *)
Definition dashboard_paths_guarded (w : World) (app : Flask) : Prop :=
  ∀ r v req,
    r ∈ url_map app →
    String.prefix "/dashboard/" (rule r) = true →
    view_functions app !! endpoint r = Some v →
    method req = "GET" →
    is_authenticated req = false →
    ∃ target next, call w app v req = Redirect target next.

(** What stays when routes are added: the bindings there are, the settings,
    the extensions and the rules. *)
Definition extends (app app' : Flask) : Prop :=
  (∀ k x, view_functions app !! k = Some x → view_functions app' !! k = Some x) ∧
  config app' = config app ∧
  extensions app' = extensions app ∧
  (∀ r, r ∈ url_map app → r ∈ url_map app').


(** The library calls of a complete run of [create_app], in order. *)
Definition bootstrap_steps (env : Env) (config_class_name : string) : list event :=
  [ EFlask "paralympics_app"; EFromObject config_class_name;
    EDash "/dashboard/"; EPushContext; ERegisterCallbacks; EPopContext;
    ECsrfInit; EDbInit; ELoginInit; EConfigureUploads;
    EPushContext; ECreateAll;
    EReadCsv noc_regions_csv; EToSql 0 "region";
    EReadCsv all_medals_csv; EToSql 0 "medals";
    EPopContext;
    ERegisterBlueprint (bp_name (main_bp env));
    ERegisterBlueprint (bp_name (auth_bp env)) ].

(** The application with the four extensions initialised on it. *)
Definition with_extensions (app : Flask) : Flask :=
  set_extensions (extensions app ++ ["csrf"; "sqlalchemy"; "login_manager"; "uploads"]) app.

(** The body of the second context block of [create_app]. *)
Definition seed (env : Env) : M unit :=
  create_all env db ;; add_noc_data db ;; add_medals_data db.

(** The process when [create_app] enters its second context block. *)
Definition before_seed (config_class_name : string) (w : World) : World :=
  {| fs := fs w; databases := databases w; app_ctx := S (app_ctx w);
     csrf_exempt_views := csrf_exempt_views w; login_view := Some "auth.login";
     trace := trace w ++
       [ EFlask "paralympics_app"; EFromObject config_class_name;
         EDash "/dashboard/"; EPushContext; ERegisterCallbacks; EPopContext;
         ECsrfInit; EDbInit; ELoginInit; EConfigureUploads; EPushContext ] |}.

(** Leaving a context block. *)
Definition leave_context (w : World) : World :=
  log EPopContext (set_app_ctx (pred (app_ctx w)) w).

(** What no function of the module changes in the process, whatever it does
    to the tables and the trace. *)
Definition same_process (w w' : World) : Prop :=
  fs w' = fs w ∧ csrf_exempt_views w' = csrf_exempt_views w ∧ app_ctx w' = app_ctx w.

(** The library calls of the second context block. *)
Definition seed_steps : list event :=
  [ ECreateAll; EReadCsv noc_regions_csv; EToSql 0 "region";
    EReadCsv all_medals_csv; EToSql 0 "medals" ].






(** One call of a function of the module, seen from the process. *)
Inductive module_step (env : Env) : World → World → Prop :=
  | step_create_app cfg w : module_step env w (create_app env cfg w).2
  | step_register_dashapp app w : module_step env w (register_dashapp env app w).2
  | step_add_noc_data d w : module_step env w (add_noc_data d w).2
  | step_add_medals_data d w : module_step env w (add_medals_data d w).2.

(** A computation that returned. *)
Definition returned {A} (o : result A * World) : bool :=
  match o.1 with
  | Ok _ => true
  | Raise _ => false
  end.

(** ** Concrete inputs *)

(** A process with the two files as given and one application context active. *)
Definition world_with (noc medals : option file) : World :=
  {| fs := list_to_map
             (omap id [ pair noc_regions_csv <$> noc; pair all_medals_csv <$> medals ]);
     databases := ∅; app_ctx := 1; csrf_exempt_views := ∅; login_view := None;
     trace := [] |}.

(** A source whose region column reads UK, UK, FR and an empty field. *)
Definition regions_example : Csv :=
  {| header := ["NOC"; "region"];
     lines := [["GBR"; "UK"]; ["ENG"; "UK"]; ["FRA"; "FR"]; ["XXX"; ""]] |}.

(** A medals source whose second line misses a value. *)
Definition medals_example : Csv :=
  {| header := ["Country"; "Event"];
     lines := [["GBR"; "Swimming"]; ["FRA"; ""]; ["USA"; "Athletics"]] |}.



(** A package: one configuration class, two declared tables, and the two
    blueprints with a route each. *)
Definition env_example : Env :=
  {| config_objects := {[ "config.DevelopmentConfig" := {[ "SECRET_KEY" := PyStr "dev" ]} ]};
     models_metadata := [("user", ["id"; "email"]); ("region", ["id"; "region"])];
     layout_layout := "layout";
     callbacks := ["update_chart"];
     main_bp := {| bp_name := "main"; url_prefix := ""; static_url_path := None;
                   deferred := [ {| rt_rule := "/"; rt_endpoint := "index";
                                    rt_view := Handler "paralympics_app.main.routes" "index";
                                    rt_methods := ["GET"] |} ] |};
     auth_bp := {| bp_name := "auth"; url_prefix := ""; static_url_path := None;
                   deferred := [ {| rt_rule := "/login"; rt_endpoint := "login";
                                    rt_view := Handler "paralympics_app.auth.routes" "login";
                                    rt_methods := ["GET"; "POST"] |} ] |} |}.

(** A Dash object over a server with two views. *)
Definition dash_example : Dash :=
  {| server :=
       {| import_name := "paralympics_app"; config := ∅;
          url_map := [ {| rule := "/static/<path:filename>"; endpoint := "static";
                          methods := ["GET"] |};
                       {| rule := "/dashboard/"; endpoint := "/dashboard/";
                          methods := ["GET"] |} ];
          view_functions :=
            {[ "static" := Handler "flask.app" "send_static_file";
               "/dashboard/" := Handler "dash.dash" "index" ]};
          blueprints := []; extensions := [] |};
     dash_config := {| routes_pathname_prefix := "/dashboard/" |};
     title := "Dash"; layout := ""; callback_map := [] |}.

(** A request without a session. *)
Definition anonymous_get (e : string) : Request :=
  {| method := "GET"; req_endpoint := Some e; url := e; is_authenticated := false |}.

(** The two bundled files, as in the examples above. *)
Definition files_example : gmap string file :=
  {[ noc_regions_csv := Content regions_example;
     all_medals_csv := Content medals_example ]}.

(** The process of the examples, once the module is imported. *)
Definition example_world : World := import_module files_example ∅.


(** A process, with the module imported, whose database holds a table of
    users from an earlier run. *)
Definition users_table : Table :=
  {| tbl_columns := ["id"; "email"]; tbl_rows := [[Int 1; Str "ada@example.org"]] |}.

Definition world_with_users : World :=
  import_module files_example {[ 0 := {[ "user" := users_table ]} ]}.



(** stdpp's solvers clear hypotheses that some goals do not have. *)
#[global] Set Warnings "-clear-no-such-hyp".

(** ** Facts about the frame operations *)

Section pandas_facts.
Implicit Types (l : list string) (rs : list (Z * list cell)).










End pandas_facts.

(** ** Running the computations *)

Lemma bind_run {A B} (m : M A) (f : A → M B) w :
  (m ≫= f) w =
  match m w with
  | (Ok a, w') => f a w'
  | (Raise e, w') => (Raise e, w')
  end.
Proof. reflexivity. Qed.

Lemma ret_run {A} (a : A) w : mret (M := M) a w = (Ok a, w).
Proof. reflexivity. Qed.

Lemma raise_run {A} e w : raise (A := A) e w = (Raise e, w).
Proof. reflexivity. Qed.

Lemma tell_run e w : tell e w = (Ok (), log e w).
Proof. reflexivity. Qed.

Lemma modify_run f w : modify f w = (Ok (), f w).
Proof. reflexivity. Qed.

Lemma lift_run {A} (r : result A) w : lift r w = (r, w).
Proof. reflexivity. Qed.

Ltac mstep :=
  repeat first
    [ rewrite bind_run | rewrite ret_run | rewrite raise_run | rewrite tell_run
    | rewrite modify_run | rewrite lift_run
    | progress cbn beta iota zeta ].

Lemma returned_Ok {A} (o : result A * World) :
  returned o = true → ∃ a w', o = (Ok a, w').
Proof. destruct o as [[a|e] w']; [eauto|done]. Qed.

Ltac unfold_M :=
  unfold mbind, M_bind, mret, M_ret, tell, modify, gets, raise, lift; cbn.

Lemma read_csv_run p u w :
  read_csv p u w =
  (match fs w !! p with
   | None => Raise FileNotFoundError
   | Some Unreadable => Raise PermissionError
   | Some Malformed => Raise ParserError
   | Some (Content c) =>
       match u with
       | Some cols => if bool_decide (cols ⊆ header c) then Ok (parse u c) else Raise ValueError
       | None => Ok (parse None c)
       end
   end, log (EReadCsv p) w).
Proof.
  unfold read_csv. unfold_M.
  destruct (fs w !! p) as [[| |c]|]; try reflexivity.
  destruct u as [cols|]; [|reflexivity]. by case_bool_decide.
Qed.

Lemma engine_run d w : 0 < app_ctx w → engine d w = (Ok (sa_id d), w).
Proof.
  intros H. unfold engine. unfold_M.
  destruct (decide (app_ctx w = 0)); [lia|done].
Qed.

Lemma engine_no_context d w : app_ctx w = 0 → engine d w = (Raise RuntimeError, w).
Proof.
  intros H. unfold engine. unfold_M.
  destruct (decide (app_ctx w = 0)); done.
Qed.

Lemma to_sql_run df name con w :
  to_sql df name con w = (Ok (), write con name (to_table df) (log (EToSql con name) w)).
Proof. reflexivity. Qed.

Lemma add_noc_data_ok d w c df :
  fs w !! noc_regions_csv = Some (Content c) →
  ["region"] ⊆ header c →
  region_frame c = Some df →
  0 < app_ctx w →
  add_noc_data d w =
    (Ok (), write 0 "region" (to_table df)
              (log (EToSql 0 "region") (log (EReadCsv noc_regions_csv) w))).
Proof.
  intros Hf Hh Hdf Hctx. unfold region_frame in Hdf.
  unfold add_noc_data. rewrite !bind_run, read_csv_run.
  change (joinpath _ _) with noc_regions_csv. rewrite Hf.
  rewrite bool_decide_eq_true_2 by done.
  destruct (drop_duplicates _ _) as [df'|]; [|done]. simpl in Hdf. injection Hdf as <-.
  mstep. rewrite engine_run by done. mstep. by rewrite to_sql_run.
Qed.

(** ** The region loader *)

Lemma region_frame_Some c : "region" ∈ header c → is_Some (region_frame c).
Proof.
  intros Hin. unfold region_frame, drop_duplicates, parse, select_columns. simpl.
  assert (∀ (f : nat → nat) hd, "region" ∈ hd →
    is_Some (get_loc "region"
      (filter (λ ic : nat * string, ic.2 ∈ ["region"]) (imap (λ i x, (f i, x)) hd)).*2)) as H.
  { intros f hd. revert f. induction hd as [|x hd IH]; intros f; [by intros ?%elem_of_nil|].
    intros Hx. simpl. destruct (decide (x = "region")) as [->|Hne].
    - rewrite filter_cons_True by (simpl; set_solver). simpl. eauto.
    - rewrite filter_cons_False by (simpl; set_solver).
      apply (IH (f ∘ S)). set_solver. }
  destruct (H id (header c) Hin) as [k Hk].
  change (imap pair (header c)) with (imap (λ i x, (id i, x)) (header c)).
  rewrite Hk. simpl. eauto.
Qed.





(** ** The medals loader *)


Lemma add_medals_data_ok d w c :
  fs w !! all_medals_csv = Some (Content c) →
  0 < app_ctx w →
  add_medals_data d w =
    (Ok (), write 0 "medals" (to_table (medals_frame c))
              (log (EToSql 0 "medals") (log (EReadCsv all_medals_csv) w))).
Proof.
  intros Hf Hctx. unfold add_medals_data. rewrite bind_run, read_csv_run.
  change (joinpath _ _) with all_medals_csv. rewrite Hf.
  mstep. rewrite engine_run by done. mstep. by rewrite to_sql_run.
Qed.






(** ** Failure of the readers *)

Lemma add_noc_data_fails d w e :
  read_error (Some ["region"]) (fs w !! noc_regions_csv) = Some e →
  add_noc_data d w = (Raise e, log (EReadCsv noc_regions_csv) w).
Proof.
  intros He. unfold add_noc_data. rewrite bind_run, read_csv_run.
  change (joinpath _ _) with noc_regions_csv.
  destruct (fs w !! noc_regions_csv) as [[| |c]|]; simpl in He; try by injection He as <-.
  case_bool_decide; [done|]. by injection He as <-.
Qed.

Lemma add_medals_data_fails d w e :
  read_error None (fs w !! all_medals_csv) = Some e →
  add_medals_data d w = (Raise e, log (EReadCsv all_medals_csv) w).
Proof.
  intros He. unfold add_medals_data. rewrite bind_run, read_csv_run.
  change (joinpath _ _) with all_medals_csv.
  destruct (fs w !! all_medals_csv) as [[| |c]|]; simpl in He; by try injection He as <-.
Qed.


(** ** The tables after a run of the loader *)

Lemma tables_of_write name t w :
  tables_of db (write 0 name t w) = <[name := t]> (tables_of db w).
Proof. unfold tables_of, write, set_tables. simpl. by rewrite lookup_insert_eq. Qed.

Lemma tables_of_log d e w : tables_of d (log e w) = tables_of d w.
Proof. reflexivity. Qed.




(** C2, at a source whose second line misses a value: the two complete
    lines are written with the ids 0 and 2, not 0 and 1. *)
Theorem add_medals_data_ids_not_sequential :
  ∃ w' t,
    add_medals_data db (world_with None (Some (Content medals_example))) = (Ok (), w') ∧
    tables_of db w' !! "medals" = Some t ∧
    tbl_rows t = [[Str "GBR"; Str "Swimming"; Int 0]; [Str "USA"; Str "Athletics"; Int 2]] ∧
    column_values "id" t = Some [Int 0; Int 2] ∧
    column_values "id" t ≠ Some ((λ i, Int (Z.of_nat i)) <$> seq 0 (length (tbl_rows t))).
Proof.
  eexists _, (to_table (medals_frame medals_example)). split.
  { apply add_medals_data_ok; [vm_compute; reflexivity|simpl; lia]. }
  split; [rewrite tables_of_write; apply lookup_insert_eq|].
  split; [vm_compute; reflexivity|]. split; [vm_compute; reflexivity|].
  vm_compute. discriminate.
Qed.

(** The process after a loader, whatever it returned: the file has been
    read, and the table has been written or not. *)
Lemma add_noc_data_world d w :
  ∃ r w', add_noc_data d w = (r, w') ∧
    (w' = log (EReadCsv noc_regions_csv) w ∨
     ∃ t, w' = write 0 "region" t
                 (log (EToSql 0 "region") (log (EReadCsv noc_regions_csv) w))).
Proof.
  destruct (read_error (Some ["region"]) (fs w !! noc_regions_csv)) as [e|] eqn:He.
  { rewrite (add_noc_data_fails _ _ _ He). eauto. }
  destruct (fs w !! noc_regions_csv) as [[| |c]|] eqn:Hf; try done.
  simpl in He. case_bool_decide as Hh; [|done].
  destruct (region_frame_Some c) as [df Hdf]; [set_solver|].
  destruct (decide (app_ctx w = 0)) as [Hctx|Hctx].
  - (* without a context, [db.engine] raises once the file is read *)
    exists (Raise RuntimeError), (log (EReadCsv noc_regions_csv) w). split; [|by left].
    unfold add_noc_data. rewrite bind_run, read_csv_run.
    change (joinpath _ _) with noc_regions_csv. rewrite Hf. cbn beta iota.
    rewrite bool_decide_eq_true_2 by done.
    unfold region_frame in Hdf. destruct (drop_duplicates _ _); [|discriminate Hdf].
    mstep. rewrite engine_no_context by exact Hctx. reflexivity.
  - rewrite (add_noc_data_ok _ _ _ _ Hf Hh Hdf) by lia.
    eexists _, _. split; [done|]. right. eauto.
Qed.

Lemma add_medals_data_world d w :
  ∃ r w', add_medals_data d w = (r, w') ∧
    (w' = log (EReadCsv all_medals_csv) w ∨
     ∃ t, w' = write 0 "medals" t
                 (log (EToSql 0 "medals") (log (EReadCsv all_medals_csv) w))).
Proof.
  destruct (read_error None (fs w !! all_medals_csv)) as [e|] eqn:He.
  { rewrite (add_medals_data_fails _ _ _ He). eauto. }
  destruct (fs w !! all_medals_csv) as [[| |c]|] eqn:Hf; try done.
  destruct (decide (app_ctx w = 0)) as [Hctx|Hctx].
  - exists (Raise RuntimeError), (log (EReadCsv all_medals_csv) w). split; [|by left].
    unfold add_medals_data. rewrite bind_run, read_csv_run.
    change (joinpath _ _) with all_medals_csv. rewrite Hf.
    mstep. rewrite engine_no_context by exact Hctx. reflexivity.
  - rewrite (add_medals_data_ok _ _ _ Hf) by lia.
    eexists _, _. split; [done|]. right. eauto.
Qed.

(** C9: the argument of the two loaders is not used.  Calls with any two
    arguments do the same; the file read is the bundled one, the table is
    written through [db], and the database of no other object changes. *)
Theorem loaders_ignore_db_name (a b : SQLAlchemy) (w : World) :
  add_noc_data a w = add_noc_data b w ∧
  add_medals_data a w = add_medals_data b w ∧
  (∃ evs, trace (add_noc_data a w).2 = trace w ++ evs ∧
          evs ⊆ [EReadCsv noc_regions_csv; EToSql (sa_id db) "region"]) ∧
  (∃ evs, trace (add_medals_data a w).2 = trace w ++ evs ∧
          evs ⊆ [EReadCsv all_medals_csv; EToSql (sa_id db) "medals"]) ∧
  (∀ i, i ≠ sa_id db →
        databases (add_noc_data a w).2 !! i = databases w !! i ∧
        databases (add_medals_data a w).2 !! i = databases w !! i).
Proof.
  split; [reflexivity|]. split; [reflexivity|].
  assert (∀ name t w0 i, i ≠ 0 → databases (write 0 name t w0) !! i = databases w0 !! i) as Hw.
  { intros. unfold write, set_tables. simpl. by rewrite lookup_insert_ne. }
  destruct (add_noc_data_world a w) as (r1 & w1 & -> & H1).
  destruct (add_medals_data_world a w) as (r2 & w2 & -> & H2).
  simpl. split.
  { destruct H1 as [->|[t ->]]; simpl.
    - eexists; split; [done|set_solver].
    - eexists [_; _]. split; [by rewrite <- app_assoc|set_solver]. }
  split.
  { destruct H2 as [->|[t ->]]; simpl.
    - eexists; split; [done|set_solver].
    - eexists [_; _]. split; [by rewrite <- app_assoc|set_solver]. }
  intros i Hi. change (sa_id db) with 0 in Hi.
  destruct H1 as [->|[t1 ->]], H2 as [->|[t2 ->]]; rewrite ?Hw by done; done.
Qed.

(** ** The wrapping pass *)

Section protect.
Implicit Types (d : gmap string view) (ks : list string).

Lemma protect_fold_lookup prefix ks d e :
  NoDup ks →
  foldl (protect_step prefix) d ks !! e =
    if decide (e ∈ ks ∧ String.prefix prefix e = true)
    then login_required <$> d !! e else d !! e.
Proof.
  revert d. induction ks as [|k ks IH]; intros d Hnd.
  { change (foldl _ d []) with d.
    rewrite decide_False; [done|]. intros [?%elem_of_nil _]. done. }
  change (foldl ?f d (k :: ks)) with (foldl f (f d k) ks).
  apply NoDup_cons in Hnd as [Hk Hnd]. rewrite (IH _ Hnd).
  unfold protect_step. destruct (decide (e = k)) as [->|Hne].
  - rewrite (decide_False (P := k ∈ ks ∧ _)) by tauto.
    destruct (String.prefix prefix k) eqn:Hp.
    + rewrite lookup_alter_eq, decide_True; [done|]. split; [set_solver|done].
    + rewrite decide_False; [done|]. intros [_ ?]. done.
  - assert ((if String.prefix prefix k then alter login_required k d else d) !! e = d !! e)
      as ->.
    { destruct (String.prefix prefix k); [by rewrite lookup_alter_ne|done]. }
    apply decide_ext. set_solver.
Qed.

Lemma protect_lookup (dash_app : Dash) e :
  view_functions (server (_protect_dash_views dash_app)) !! e =
    if String.prefix (routes_pathname_prefix (dash_config dash_app)) e
    then login_required <$> view_functions (server dash_app) !! e
    else view_functions (server dash_app) !! e.
Proof.
  unfold _protect_dash_views. simpl.
  change (foldl _ ?d ?ks) with
    (foldl (protect_step (routes_pathname_prefix (dash_config dash_app))) d ks).
  rewrite protect_fold_lookup by apply NoDup_fst_map_to_list.
  destruct (String.prefix _ e) eqn:Hp.
  - case_decide as H; [done|].
    destruct (view_functions (server dash_app) !! e) as [v|] eqn:Hv; [|done].
    exfalso. apply H. split; [|done].
    apply list_elem_of_fmap. exists (e, v). split; [done|]. by apply elem_of_map_to_list.
  - rewrite decide_False; [done|]. intros [_ ?]. done.
Qed.
End protect.

(** C8: the pass leaves every view whose endpoint does not start with the
    prefix as it was, and changes nothing else of the server or of the Dash
    object. *)
Theorem protect_dash_views_frame (dash_app : Dash) (e : string) :
  String.prefix (routes_pathname_prefix (dash_config dash_app)) e = false →
  let dash_app' := _protect_dash_views dash_app in
  view_functions (server dash_app') !! e = view_functions (server dash_app) !! e ∧
  dom (view_functions (server dash_app')) = dom (view_functions (server dash_app)) ∧
  url_map (server dash_app') = url_map (server dash_app) ∧
  config (server dash_app') = config (server dash_app) ∧
  blueprints (server dash_app') = blueprints (server dash_app) ∧
  extensions (server dash_app') = extensions (server dash_app) ∧
  dash_config dash_app' = dash_config dash_app ∧
  callback_map dash_app' = callback_map dash_app.
Proof.
  intros Hp dash_app'. split.
  { unfold dash_app'. by rewrite protect_lookup, Hp. }
  split; [|done].
  apply set_eq. intros k. rewrite !elem_of_dom. unfold dash_app'.
  rewrite protect_lookup. destruct (String.prefix _ k); [|done].
  by rewrite fmap_is_Some.
Qed.

Lemma protect_dash_views_frame_witness :
  view_functions (server (_protect_dash_views dash_example)) !! "static"
  = Some (Handler "flask.app" "send_static_file").
Proof.
  destruct (protect_dash_views_frame dash_example "static") as [H _]; [reflexivity|].
  rewrite H. reflexivity.
Defined.

(** ** Mounting the dashboard *)

(** Worlds are kept in the form [logs evs (set_app_ctx n (set_login_view v w))]
    by rewriting, and never unfolded. *)
Lemma log_as_logs e w : log e w = logs [e] w.
Proof. reflexivity. Qed.

Lemma logs_logs a b w : logs a (logs b w) = logs (b ++ a) w.
Proof. unfold logs. simpl. by rewrite <- app_assoc. Qed.

Lemma set_login_view_logs v a w : set_login_view v (logs a w) = logs a (set_login_view v w).
Proof. reflexivity. Qed.

Lemma set_app_ctx_logs n a w : set_app_ctx n (logs a w) = logs a (set_app_ctx n w).
Proof. reflexivity. Qed.

Lemma set_tables_logs c t a w : set_tables c t (logs a w) = logs a (set_tables c t w).
Proof. reflexivity. Qed.

Lemma set_app_ctx_twice n m w : set_app_ctx n (set_app_ctx m w) = set_app_ctx n w.
Proof. reflexivity. Qed.

Lemma set_app_ctx_same w : set_app_ctx (app_ctx w) w = w.
Proof. by destruct w. Qed.

Lemma app_ctx_logs a w : app_ctx (logs a w) = app_ctx w.
Proof. reflexivity. Qed.

Lemma app_ctx_set_login_view v w : app_ctx (set_login_view v w) = app_ctx w.
Proof. reflexivity. Qed.

Lemma app_ctx_set_app_ctx n w : app_ctx (set_app_ctx n w) = n.
Proof. reflexivity. Qed.

Lemma before_seed_eq cfg w :
  before_seed cfg w =
    logs [ EFlask "paralympics_app"; EFromObject cfg;
           EDash "/dashboard/"; EPushContext; ERegisterCallbacks; EPopContext;
           ECsrfInit; EDbInit; ELoginInit; EConfigureUploads; EPushContext ]
         (set_app_ctx (S (app_ctx w)) (set_login_view "auth.login" w)).
Proof. reflexivity. Qed.

Create Rewrite HintDb world.
#[global] Hint Rewrite log_as_logs logs_logs set_login_view_logs set_app_ctx_logs
  set_tables_logs set_app_ctx_twice app_ctx_logs app_ctx_set_login_view
  app_ctx_set_app_ctx : world.

Ltac same_world :=
  autorewrite with world; rewrite ?before_seed_eq; cbn [List.app Nat.pred]; reflexivity.

Lemma with_app_context_run {A} (body : M A) w :
  with_app_context body w =
    let '(r, w') := body (log EPushContext (set_app_ctx (S (app_ctx w)) w)) in
    (r, log EPopContext (set_app_ctx (pred (app_ctx w')) w')).
Proof. reflexivity. Qed.

Lemma register_dashapp_run env app w :
  register_dashapp env app w =
    match new_Dash app "/dashboard/" with
    | Ok d =>
        (Ok (server (_protect_dash_views (mounted env d))),
         logs [EDash "/dashboard/"; EPushContext; ERegisterCallbacks; EPopContext] w)
    | Raise e => (Raise e, logs [EDash "/dashboard/"] w)
    end.
Proof.
  unfold register_dashapp. rewrite bind_run.
  assert ((tell (EDash "/dashboard/") ;; lift (new_Dash app "/dashboard/")) w
          = (new_Dash app "/dashboard/", logs [EDash "/dashboard/"] w)) as -> by done.
  destruct (new_Dash app "/dashboard/") as [d|e]; [|done].
  mstep. rewrite with_app_context_run. unfold register_callbacks.
  mstep. unfold tell, modify. cbn beta iota. f_equal.
  autorewrite with world. cbn [List.app Nat.pred]. by rewrite set_app_ctx_same.
Qed.

(** ** Registering routes *)

Lemma result_bind_Ok {A B} (r : result A) (f : A → result B) b :
  r ≫= f = Ok b → ∃ a, r = Ok a ∧ f a = Ok b.
Proof. destruct r as [a|e]; [eauto|done]. Qed.

Lemma extends_refl app : extends app app.
Proof. by repeat split. Qed.

Lemma extends_trans app1 app2 app3 : extends app1 app2 → extends app2 app3 → extends app1 app3.
Proof.
  intros (Hv1 & Hc1 & He1 & Hu1) (Hv2 & Hc2 & He2 & Hu2).
  repeat split; [naive_solver|congruence|congruence|naive_solver].
Qed.

Lemma add_url_rule_Ok r e v ms app app' :
  add_url_rule r e v ms app = Ok app' →
  view_functions app' !! e = Some v ∧
  {| rule := r; endpoint := e; methods := ms |} ∈ url_map app' ∧
  blueprints app' = blueprints app ∧
  extends app app'.
Proof.
  unfold add_url_rule. simpl.
  destruct (view_functions app !! e) as [old|] eqn:Hold.
  - case_decide as Heq; [|done]. intros [= <-]. subst old. simpl.
    repeat split; try done; set_solver.
  - intros [= <-]. simpl. rewrite lookup_insert_eq.
    split; [done|]. split; [set_solver|]. split; [done|].
    split; [|split; [done|split; [done|set_solver]]].
    simpl. intros k x Hk. rewrite lookup_insert_ne; [done|]. intros ->. congruence.
Qed.

Lemma add_routes_Ok prefix name rts app app' :
  add_routes prefix name rts app = Ok app' →
  blueprints app' = blueprints app ∧ extends app app' ∧
  ∀ rt, rt ∈ rts →
    view_functions app' !! (name +:+ "." +:+ rt_endpoint rt) = Some (rt_view rt) ∧
    {| rule := prefix +:+ rt_rule rt; endpoint := name +:+ "." +:+ rt_endpoint rt;
       methods := rt_methods rt |} ∈ url_map app'.
Proof.
  revert app. induction rts as [|rt rts IH]; intros app; simpl.
  { intros [= <-]. split; [done|]. split; [apply extends_refl|]. by intros ? ?%elem_of_nil. }
  intros (app1 & H1 & H2)%result_bind_Ok.
  apply add_url_rule_Ok in H1 as (Hv & Hr & Hb & Hx).
  destruct (IH _ H2) as (Hb' & Hx' & Hall).
  split; [congruence|]. split; [by eapply extends_trans|].
  intros rt' [->|Hin]%elem_of_cons; [|by apply Hall].
  destruct Hx' as (Hv' & _ & _ & Hu'). split; [by apply Hv'|by apply Hu'].
Qed.

Lemma _setup_routes_Ok prefix rs app app' :
  _setup_routes prefix rs app = Ok app' →
  blueprints app' = blueprints app ∧ extends app app' ∧
  ∀ r, r ∈ rs → view_functions app' !! (prefix +:+ r.1.1) = Some r.1.2.
Proof.
  revert app. induction rs as [|r rs IH]; intros app; simpl.
  { intros [= <-]. split; [done|]. split; [apply extends_refl|]. by intros ? ?%elem_of_nil. }
  intros (app1 & H1 & H2)%result_bind_Ok.
  apply add_url_rule_Ok in H1 as (Hv & Hr & Hb & Hx).
  destruct (IH _ H2) as (Hb' & Hx' & Hall).
  split; [congruence|]. split; [by eapply extends_trans|].
  intros r' [->|Hin]%elem_of_cons; [|by apply Hall].
  destruct Hx' as (Hv' & _). by apply Hv'.
Qed.

Lemma register_blueprint_Ok bp app app' :
  register_blueprint bp app = Ok app' →
  (bp_name bp ∉ blueprints app) ∧
  blueprints app' = blueprints app ++ [bp_name bp] ∧
  extends app app' ∧
  (∀ p, static_url_path bp = Some p →
     view_functions app' !! (bp_name bp +:+ ".static")
       = Some (Handler "flask.blueprints" "send_static_file") ∧
     {| rule := url_prefix bp +:+ p +:+ "/<path:filename>";
        endpoint := bp_name bp +:+ ".static"; methods := ["GET"] |} ∈ url_map app').
Proof.
  unfold register_blueprint. case_decide as Hn; [done|].
  intros (Hb & Hx & Hall)%add_routes_Ok. simpl in Hb.
  split; [done|]. split; [done|]. split.
  { destruct Hx as (? & ? & ? & ?). by repeat split. }
  intros p Hp. rewrite Hp in Hall.
  apply (Hall {| rt_rule := p +:+ "/<path:filename>"; rt_endpoint := "static";
                 rt_view := Handler "flask.blueprints" "send_static_file";
                 rt_methods := ["GET"] |}).
  set_solver.
Qed.

Lemma new_Dash_Ok app d :
  new_Dash app "/dashboard/" = Ok d →
  dash_config d = {| routes_pathname_prefix := "/dashboard/" |} ∧
  extends app (server d) ∧
  blueprints (server d) = blueprints app ++ ["_dashboard_dash_assets"] ∧
  (∀ r, r ∈ dash_routes →
     view_functions (server d) !! ("/dashboard/" +:+ r.1.1) = Some r.1.2) ∧
  view_functions (server d) !! "_dashboard_dash_assets.static"
    = Some (Handler "flask.blueprints" "send_static_file") ∧
  {| rule := "/dashboard/assets/<path:filename>";
     endpoint := "_dashboard_dash_assets.static"; methods := ["GET"] |}
    ∈ url_map (server d).
Proof.
  unfold new_Dash. intros (app1 & H1 & (app2 & H2 & [= <-])%result_bind_Ok)%result_bind_Ok.
  apply register_blueprint_Ok in H1 as (_ & Hb1 & Hx1 & Hs).
  apply _setup_routes_Ok in H2 as (Hb2 & Hx2 & Hall). simpl.
  destruct (Hs _ eq_refl) as [Hv Hr].
  split; [done|]. split; [by eapply extends_trans|].
  split; [by rewrite Hb2, Hb1|]. split; [done|].
  destruct Hx2 as (Hv2 & _ & _ & Hu2). split; [by apply Hv2|by apply Hu2].
Qed.

(** ** The guard on the dashboard *)

Lemma call_login_required w app func req :
  method req ∉ EXEMPT_METHODS →
  from_option truthy false (config app !! "LOGIN_DISABLED") = false →
  call w app (login_required func) req =
    if is_authenticated req then call w app func req else unauthorized w req.
Proof.
  intros Hm Hd. simpl. rewrite Hd, bool_decide_eq_false_2 by done. simpl.
  by destruct (is_authenticated req).
Qed.

Lemma prefix_append p s : String.prefix p (p +:+ s) = true.
Proof.
  induction p as [|a p IH]; simpl; [by destruct s|].
  destruct (ascii_dec a a); [done|congruence].
Qed.


Lemma register_dashapp_Ok env app w app' w' :
  register_dashapp env app w = (Ok app', w') →
  ∃ d, new_Dash app "/dashboard/" = Ok d ∧
       app' = server (_protect_dash_views (mounted env d)) ∧
       w' = logs [EDash "/dashboard/"; EPushContext; ERegisterCallbacks; EPopContext] w.
Proof.
  rewrite register_dashapp_run. destruct (new_Dash app "/dashboard/") as [d|e]; [|done].
  intros [= <- <-]. eauto.
Qed.

Lemma mounted_dash_views env app d :
  new_Dash app "/dashboard/" = Ok d →
  (∀ r, r ∈ dash_routes →
     view_functions (server (_protect_dash_views (mounted env d))) !! ("/dashboard/" +:+ r.1.1)
       = Some (login_required r.1.2)) ∧
  (∀ e v, view_functions (server (_protect_dash_views (mounted env d))) !! e = Some v →
     String.prefix "/dashboard/" e = true → ∃ func, v = login_required func).
Proof.
  intros (Hcfg & _ & _ & Hroutes & _)%new_Dash_Ok.
  assert (routes_pathname_prefix (dash_config (mounted env d)) = "/dashboard/") as Hp.
  { simpl. by rewrite Hcfg. }
  split.
  - intros r Hr. rewrite protect_lookup, Hp, prefix_append. simpl.
    by rewrite (Hroutes r Hr).
  - intros e v Hv He. rewrite protect_lookup, Hp, He in Hv.
    destruct (view_functions (server (mounted env d)) !! e) as [func|]; [|done].
    injection Hv as <-. eauto.
Qed.

(** C3, as the code has it: once [register_dashapp] has returned, the views
    that Dash has added, and every view whose endpoint name starts with
    [/dashboard/], are decorated with [login_required]; a decorated view
    answers a request that Flask-Login does not exempt with the redirect to
    the login view when there is no session and as the handler does when
    there is one.  The static route of the assets, whose path starts with
    [/dashboard/] and whose endpoint name does not, is left undecorated. *)
Theorem register_dashapp_guards_dash_endpoints
    (env : Env) (app : Flask) (w : World) (app' : Flask) (w' : World) :
  register_dashapp env app w = (Ok app', w') →
  (∀ r, r ∈ dash_routes →
     view_functions app' !! ("/dashboard/" +:+ r.1.1) = Some (login_required r.1.2)) ∧
  (∀ e v, view_functions app' !! e = Some v → String.prefix "/dashboard/" e = true →
     ∃ func, v = login_required func) ∧
  (∀ func wr req lv,
     login_view wr = Some lv →
     method req ∉ EXEMPT_METHODS →
     from_option truthy false (config app' !! "LOGIN_DISABLED") = false →
     call wr app' (login_required func) req =
       if is_authenticated req then call wr app' func req else Redirect lv (url req)) ∧
  {| rule := "/dashboard/assets/<path:filename>";
     endpoint := "_dashboard_dash_assets.static"; methods := ["GET"] |} ∈ url_map app' ∧
  view_functions app' !! "_dashboard_dash_assets.static"
    = Some (Handler "flask.blueprints" "send_static_file").
Proof.
  intros (d & Hd & -> & ->)%register_dashapp_Ok.
  destruct (mounted_dash_views env app d Hd) as [Hwrapped Hall].
  apply new_Dash_Ok in Hd as (Hcfg & Hx & Hb & Hroutes & Hassets & Hrule).
  assert (routes_pathname_prefix (dash_config (mounted env d)) = "/dashboard/") as Hp.
  { simpl. by rewrite Hcfg. }
  split; [exact Hwrapped|]. split; [exact Hall|].
  split.
  { intros func wr req lv Hlv Hm Hdis. rewrite call_login_required by done.
    unfold unauthorized. by rewrite Hlv. }
  split; [done|].
  rewrite protect_lookup, Hp. simpl. done.
Qed.

Lemma register_dashapp_guards_dash_endpoints_witness :
  ∃ app' w',
    register_dashapp env_example (new_Flask "paralympics_app") example_world
      = (Ok app', w') ∧
    view_functions app' !! "/dashboard/_dash-layout"
      = Some (login_required (Handler "dash.dash" "serve_layout")) ∧
    view_functions app' !! "_dashboard_dash_assets.static"
      = Some (Handler "flask.blueprints" "send_static_file").
Proof.
  destruct (returned_Ok (register_dashapp env_example (new_Flask "paralympics_app")
                           example_world)) as (app' & w' & Hrun);
    [vm_compute; reflexivity|].
  destruct (register_dashapp_guards_dash_endpoints _ _ _ _ _ Hrun)
    as (Hroutes & _ & _ & _ & Hassets).
  exists app', w'. split; [exact Hrun|]. split; [|exact Hassets].
  apply (Hroutes ("_dash-layout", Handler "dash.dash" "serve_layout", ["GET"])).
  compute_done.
Defined.

(** C3, as the specification states it, fails: after [register_dashapp] on a
    new application the route of the assets, [/dashboard/assets/...], serves
    a request without a session. *)
Lemma dashboard_assets_route_unguarded :
  ∃ app' w',
    register_dashapp env_example (new_Flask "paralympics_app") example_world
      = (Ok app', w') ∧
    ¬ dashboard_paths_guarded (set_login_view "auth.login" w') app'.
Proof.
  destruct (returned_Ok (register_dashapp env_example (new_Flask "paralympics_app")
                           example_world)) as (app' & w' & Hrun);
    [vm_compute; reflexivity|].
  exists app', w'. split; [exact Hrun|].
  apply register_dashapp_Ok in Hrun as (d & Hd & -> & _).
  pose proof (new_Dash_Ok _ _ Hd) as (Hcfg & _ & _ & _ & Hassets & Hrule).
  clear Hd. intros H.
  destruct (H {| rule := "/dashboard/assets/<path:filename>";
                 endpoint := "_dashboard_dash_assets.static"; methods := ["GET"] |}
              (Handler "flask.blueprints" "send_static_file")
              (anonymous_get "_dashboard_dash_assets.static"))
    as (target & next & Hcall);
    [exact Hrule | reflexivity | | reflexivity | reflexivity | discriminate Hcall].
  rewrite protect_lookup. cbn [mounted dash_config server]. rewrite Hcfg. exact Hassets.
Qed.

(** ** The factory, step by step *)

Lemma from_object_run env name app w :
  from_object env name app w =
    (match config_objects env !! name with
     | Some settings => Ok (set_config (settings ∪ config app) app)
     | None => Raise ImportError
     end, log (EFromObject name) w).
Proof.
  unfold from_object. rewrite bind_run. unfold tell, modify. cbn beta iota.
  by destruct (config_objects env !! name).
Qed.

Lemma create_app_run env cfg w :
  create_app env cfg w =
    match config_objects env !! cfg with
    | None => (Raise ImportError, logs (take 2 (bootstrap_steps env cfg)) w)
    | Some settings =>
        match new_Dash (set_config (settings ∪ ∅) (new_Flask "paralympics_app"))
                "/dashboard/" with
        | Raise e => (Raise e, logs (take 3 (bootstrap_steps env cfg)) w)
        | Ok d =>
            let app := with_extensions (server (_protect_dash_views (mounted env d))) in
            match seed env (before_seed cfg w) with
            | (Raise e, w) => (Raise e, leave_context w)
            | (Ok _, w) =>
                let w := leave_context w in
                match register_blueprint (main_bp env) app with
                | Raise e => (Raise e, log (ERegisterBlueprint (bp_name (main_bp env))) w)
                | Ok app =>
                    (register_blueprint (auth_bp env) app,
                     log (ERegisterBlueprint (bp_name (auth_bp env)))
                       (log (ERegisterBlueprint (bp_name (main_bp env))) w))
                end
            end
        end
    end.
Proof.
  unfold create_app. mstep. rewrite from_object_run.
  destruct (config_objects env !! cfg) as [settings|]; [|f_equal; same_world].
  mstep. rewrite register_dashapp_run.
  change (config (new_Flask "paralympics_app")) with (∅ : gmap string pyval).
  destruct (new_Dash _ _) as [d|e]; [|f_equal; same_world].
  unfold configure_uploads, init_app. mstep.
  rewrite with_app_context_run.
  set (w0 := log EPushContext _).
  assert (w0 = before_seed cfg w) as Hw0 by (unfold w0; same_world).
  clearbody w0. subst w0.
  change (create_all env db ;; add_noc_data db ;; add_medals_data db) with (seed env).
  destruct (seed env (before_seed cfg w)) as [[[]|e] w2]; [|done].
  mstep. fold (leave_context w2).
  unfold with_extensions. cbn [extensions set_extensions].
  rewrite <- !app_assoc. cbn [List.app].
  destruct (register_blueprint (main_bp env) _) as [app1|e]; [|done].
  mstep. by destruct (register_blueprint (auth_bp env) app1).
Qed.

Lemma create_all_run env d w :
  0 < app_ctx w →
  create_all env d w =
    (Ok (), set_tables (sa_id d)
              (create_missing (models_metadata env) (default ∅ (databases w !! sa_id d)))
              (log ECreateAll w)).
Proof.
  intros Hctx. unfold create_all. mstep. rewrite engine_run by done. by mstep.
Qed.

(** The second context block: what it returns, and the calls it has made. *)
Lemma seed_outcome env w :
  0 < app_ctx w →
  ∃ r w' k,
    seed env w = (r, w') ∧ same_process w w' ∧ login_view w' = login_view w ∧
    trace w' = trace w ++ take k seed_steps ∧
    match r with
    | Ok _ =>
        k = 5 ∧
        read_error (Some ["region"]) (fs w !! noc_regions_csv) = None ∧
        read_error None (fs w !! all_medals_csv) = None ∧
        ∃ noc medals region,
          fs w !! noc_regions_csv = Some (Content noc) ∧
          fs w !! all_medals_csv = Some (Content medals) ∧
          region_frame noc = Some region ∧
          tables_of db w' !! "region" = Some (to_table region) ∧
          tables_of db w' !! "medals" = Some (to_table (medals_frame medals))
    | Raise e =>
        (k = 2 ∧ read_error (Some ["region"]) (fs w !! noc_regions_csv) = Some e) ∨
        (k = 4 ∧ read_error (Some ["region"]) (fs w !! noc_regions_csv) = None ∧
         read_error None (fs w !! all_medals_csv) = Some e)
    end.
Proof.
  intros Hctx. unfold seed. rewrite bind_run, create_all_run by done. mstep.
  set (w1 := set_tables _ _ _).
  assert (fs w1 = fs w ∧ 0 < app_ctx w1) as [Hfs Hctx1] by done.
  rewrite ?bind_run.
  destruct (read_error (Some ["region"]) (fs w !! noc_regions_csv)) as [e|] eqn:Hn.
  { rewrite (add_noc_data_fails db w1 e) by (by rewrite Hfs).
    eexists _, _, 2. split; [done|]. split; [done|]. split; [done|].
    split; [|by left]. simpl. by rewrite <- !app_assoc. }
  destruct (fs w !! noc_regions_csv) as [[| |noc]|] eqn:Hnf; try done.
  simpl in Hn. case_bool_decide as Hh; [|done].
  destruct (region_frame_Some noc) as [region Hregion]; [set_solver|].
  rewrite (add_noc_data_ok db w1 noc region) by (done || by rewrite Hfs).
  mstep. set (w2 := write _ _ _ _).
  assert (fs w2 = fs w ∧ 0 < app_ctx w2) as [Hfs2 Hctx2] by done.
  destruct (read_error None (fs w !! all_medals_csv)) as [e|] eqn:Hm.
  { rewrite (add_medals_data_fails db w2 e) by (by rewrite Hfs2).
    eexists _, _, 4. split; [done|]. split; [done|]. split; [done|].
    split; [|right; by repeat split].
    simpl. by rewrite <- !app_assoc. }
  destruct (fs w !! all_medals_csv) as [[| |medals]|] eqn:Hmf; try done.
  rewrite (add_medals_data_ok db w2 medals) by (done || by rewrite Hfs2).
  eexists _, _, 5. split; [done|]. split; [done|]. split; [done|].
  split; [simpl; by rewrite <- !app_assoc|].
  split; [done|]. split; [done|]. split; [done|].
  exists noc, medals, region. split; [done|]. split; [done|]. split; [done|].
  unfold w2. rewrite !tables_of_write, !tables_of_log, !tables_of_write.
  split; [|apply lookup_insert_eq].
  rewrite lookup_insert_ne by discriminate. apply lookup_insert_eq.
Qed.

(** Every run of [create_app]: what it returns, the calls it has made, and
    what a returned application is made of. *)
Lemma create_app_outcome env cfg w :
  ∃ r w' done,
    create_app env cfg w = (r, w') ∧
    same_process w w' ∧
    trace w' = trace w ++ done ∧
    (∃ k, (k ∈ [2; 3; 18; 19] ∧ done = take k (bootstrap_steps env cfg)) ∨
          (k ∈ [13; 15] ∧ done = take k (bootstrap_steps env cfg) ++ [EPopContext])) ∧
    match r with
    | Ok app =>
        done = bootstrap_steps env cfg ∧
        login_view w' = Some "auth.login" ∧
        read_error (Some ["region"]) (fs w !! noc_regions_csv) = None ∧
        read_error None (fs w !! all_medals_csv) = None ∧
        (∃ noc medals region,
           fs w !! noc_regions_csv = Some (Content noc) ∧
           fs w !! all_medals_csv = Some (Content medals) ∧
           region_frame noc = Some region ∧
           tables_of db w' !! "region" = Some (to_table region) ∧
           tables_of db w' !! "medals" = Some (to_table (medals_frame medals))) ∧
        ∃ settings d app1,
          config_objects env !! cfg = Some settings ∧
          new_Dash (set_config (settings ∪ ∅) (new_Flask "paralympics_app")) "/dashboard/"
            = Ok d ∧
          register_blueprint (main_bp env)
            (with_extensions (server (_protect_dash_views (mounted env d)))) = Ok app1 ∧
          register_blueprint (auth_bp env) app1 = Ok app
    | Raise _ => True
    end.
Proof.
  assert (∀ k : nat, k ∈ [2; 3; 18; 19] ↔ k = 2 ∨ k = 3 ∨ k = 18 ∨ k = 19) as Hplain
    by set_solver.
  assert (∀ k : nat, k ∈ [13; 15] ↔ k = 13 ∨ k = 15) as Hpop by set_solver.
  assert (∀ a w0, same_process w0 (logs a w0)) as Hlogs by (by intros; repeat split).
  rewrite create_app_run.
  destruct (config_objects env !! cfg) as [settings|] eqn:Hcfg.
  2: { eexists _, _, _. split; [reflexivity|]. split; [apply Hlogs|].
       split; [reflexivity|]. split; [|exact I].
       exists 2. left. split; [apply Hplain; tauto|reflexivity]. }
  destruct (new_Dash _ _) as [d|e] eqn:Hd.
  2: { eexists _, _, _. split; [reflexivity|]. split; [apply Hlogs|].
       split; [reflexivity|]. split; [|exact I].
       exists 3. left. split; [apply Hplain; tauto|reflexivity]. }
  cbn zeta.
  destruct (seed_outcome env (before_seed cfg w))
    as (r & w2 & k & -> & (Hfs & Hcsrf & Hctx) & Hlv & Htr & Hr); [simpl; lia|].
  change (fs w2 = fs w) in Hfs.
  change (csrf_exempt_views w2 = csrf_exempt_views w) in Hcsrf.
  change (app_ctx w2 = S (app_ctx w)) in Hctx.
  change (login_view w2 = Some "auth.login") in Hlv.
  change (trace w2 = (trace w ++ take 11 (bootstrap_steps env cfg)) ++ take k seed_steps) in Htr.
  assert (same_process w (leave_context w2)) as Hleave.
  { unfold same_process, leave_context. cbn [fs csrf_exempt_views app_ctx log set_app_ctx].
    rewrite Hfs, Hcsrf, Hctx. by repeat split. }
  assert (trace (leave_context w2)
          = trace w ++ (take 11 (bootstrap_steps env cfg) ++ take k seed_steps ++ [EPopContext]))
    as Htrace.
  { unfold leave_context. cbn [trace log set_app_ctx]. rewrite Htr. by rewrite <- !app_assoc. }
  destruct r as [[]|e].
  2: { eexists _, _, _. split; [reflexivity|]. split; [exact Hleave|].
       split; [exact Htrace|]. split; [|exact I].
       destruct Hr as [[-> _]|[-> _]]; [exists 13|exists 15]; right;
         (split; [apply Hpop; tauto|reflexivity]). }
  destruct Hr as (-> & Hn & Hm & Htables).
  change (fs (before_seed cfg w)) with (fs w) in Hn, Hm, Htables.
  destruct (register_blueprint (main_bp env) _) as [app1|e] eqn:Hmain.
  2: { eexists _, _, _. split; [reflexivity|]. split; [exact Hleave|]. split.
       { cbn [trace log]. rewrite Htrace, <- !app_assoc. reflexivity. }
       split; [|exact I]. exists 18. left. split; [apply Hplain; tauto|reflexivity]. }
  destruct (register_blueprint (auth_bp env) app1) as [app|e] eqn:Hauth.
  2: { eexists _, _, _. split; [reflexivity|]. split; [exact Hleave|]. split.
       { cbn [trace log]. rewrite Htrace, <- !app_assoc. reflexivity. }
       split; [|exact I]. exists 19. left. split; [apply Hplain; tauto|reflexivity]. }
  eexists _, _, _. split; [reflexivity|]. split; [exact Hleave|]. split.
  { cbn [trace log]. rewrite Htrace, <- !app_assoc. reflexivity. }
  split; [exists 19; left; split; [apply Hplain; tauto|reflexivity]|].
  split; [reflexivity|]. split; [exact Hlv|]. split; [exact Hn|]. split; [exact Hm|].
  split; [exact Htables|].
  exists settings, d, app1. split; [reflexivity|]. split; [exact Hd|].
  split; [exact Hmain|exact Hauth].
Qed.

(** ** The order of the bootstrap *)






(** What a returned application holds of the dashboard. *)
Lemma create_app_Ok_views env cfg w app w' :
  create_app env cfg w = (Ok app, w') →
  (bp_name (main_bp env) ≠ bp_name (auth_bp env)) ∧
  ∀ r, r ∈ dash_routes →
    view_functions app !! ("/dashboard/" +:+ r.1.1) = Some (login_required r.1.2).
Proof.
  intros Hrun.
  destruct (create_app_outcome env cfg w) as (r & w2 & done & Hrun' & _ & _ & _ & Hr).
  rewrite Hrun in Hrun'. injection Hrun' as <- <-.
  destruct Hr as (_ & _ & _ & _ & _ & settings & d & app1 & _ & Hd & Hmain & Hauth).
  apply register_blueprint_Ok in Hmain as (_ & Hb1 & (Hv1 & _) & _).
  apply register_blueprint_Ok in Hauth as (Hnotin & _ & (Hv2 & _) & _).
  apply (mounted_dash_views env) in Hd as [Hd _].
  split.
  { intros Heq. apply Hnotin. rewrite Hb1, <- Heq. set_solver. }
  intros r Hr. apply Hv2, Hv1, Hd, Hr.
Qed.





(** ** Failing sources *)





(** ** The exemption of the dispatch view *)

Lemma module_step_same_csrf env w w' :
  module_step env w w' → csrf_exempt_views w' = csrf_exempt_views w.
Proof.
  destruct 1 as [cfg w|app w|d w|d w].
  - destruct (create_app_outcome env cfg w) as (r & w' & done & -> & (_ & H & _) & _).
    exact H.
  - rewrite register_dashapp_run. by destruct (new_Dash app "/dashboard/").
  - destruct (add_noc_data_world d w) as (r & w' & -> & [->|[t ->]]); reflexivity.
  - destruct (add_medals_data_world d w) as (r & w' & -> & [->|[t ->]]); reflexivity.
Qed.

Lemma module_steps_same_csrf env w w' :
  rtc (module_step env) w w' → csrf_exempt_views w' = csrf_exempt_views w.
Proof.
  induction 1 as [|w1 w2 w3 Hstep _ IH]; [reflexivity|].
  rewrite IH. by apply (module_step_same_csrf env).
Qed.

(** C10: once the module is imported, and after any calls of its functions,
    [dash.dash.dispatch] is in the exempt views of [csrf]; in every
    application [create_app] then returns, the dispatch endpoint of the
    dashboard is bound to that view, decorated, and a request to it is not
    checked for a token. *)
Theorem csrf_exemption_kept
    (env : Env) (files : gmap string file) (dbs : gmap nat (gmap string Table))
    (w : World) :
  rtc (module_step env) (import_module files dbs) w →
  "dash.dash.dispatch" ∈ csrf_exempt_views w ∧
  ∀ cfg app w',
    create_app env cfg w = (Ok app, w') →
    "dash.dash.dispatch" ∈ csrf_exempt_views w' ∧
    view_functions app !! "/dashboard/_dash-update-component"
      = Some (login_required (Handler "dash.dash" "dispatch")) ∧
    ∀ req, req_endpoint req = Some "/dashboard/_dash-update-component" →
           csrf_protect w' app req = false.
Proof.
  intros Hreach.
  assert (csrf_exempt_views w = ∅ ∪ {[ "dash.dash.dispatch" ]}) as Hw
    by apply (module_steps_same_csrf env _ _ Hreach).
  split; [rewrite Hw; set_solver|].
  intros cfg app w' Hrun.
  assert (csrf_exempt_views w' = ∅ ∪ {[ "dash.dash.dispatch" ]}) as Hw'.
  { rewrite <- Hw. apply (module_step_same_csrf env).
    replace w' with (create_app env cfg w).2 by (by rewrite Hrun). constructor. }
  destruct (create_app_Ok_views _ _ _ _ _ Hrun) as [_ Hviews].
  assert (view_functions app !! "/dashboard/_dash-update-component"
          = Some (login_required (Handler "dash.dash" "dispatch"))) as Hdispatch.
  { apply (Hviews ("_dash-update-component", Handler "dash.dash" "dispatch", ["POST"])).
    set_solver. }
  clear Hrun.
  split; [rewrite Hw'; set_solver|]. split; [exact Hdispatch|].
  intros req Hreq. unfold csrf_protect.
  repeat (case_match; [reflexivity|]).
  rewrite Hreq. simpl. rewrite Hdispatch. simpl.
  rewrite Hw'. apply negb_false_iff, bool_decide_eq_true. set_solver.
Qed.

Lemma csrf_exemption_kept_witness :
  "dash.dash.dispatch"
    ∈ csrf_exempt_views (create_app env_example "config.DevelopmentConfig" example_world).2.
Proof.
  destruct (csrf_exemption_kept env_example files_example ∅
              (create_app env_example "config.DevelopmentConfig" example_world).2)
    as [H _]; [|exact H].
  apply rtc_once. constructor.
Defined.

(** ** The tables of a returned application *)

(** X2: When [create_app] returns, both source files were readable, and the
    tables [region] and [medals] of the database hold what the two loaders
    compute from them: the context block has run to its end and nothing after
    it touches the database. *)
Theorem create_app_seeds_tables
    (env : Env) (config_class_name : string) (w : World) (app : Flask) (w' : World) :
  create_app env config_class_name w = (Ok app, w') →
  ∃ noc medals region,
    fs w !! noc_regions_csv = Some (Content noc) ∧
    fs w !! all_medals_csv = Some (Content medals) ∧
    region_frame noc = Some region ∧
    tables_of db w' !! "region" = Some (to_table region) ∧
    tables_of db w' !! "medals" = Some (to_table (medals_frame medals)).
Proof.
  intros Hrun.
  destruct (create_app_outcome env config_class_name w)
    as (r & w2 & done & Hrun' & _ & _ & _ & Hr).
  rewrite Hrun in Hrun'. injection Hrun' as <- <-.
  destruct Hr as (_ & _ & _ & _ & Htables & _). exact Htables.
Qed.

Lemma create_app_seeds_tables_witness :
  ∃ app w' noc medals region,
    create_app env_example "config.DevelopmentConfig" example_world = (Ok app, w') ∧
    fs example_world !! noc_regions_csv = Some (Content noc) ∧
    fs example_world !! all_medals_csv = Some (Content medals) ∧
    region_frame noc = Some region ∧
    tables_of db w' !! "region" = Some (to_table region) ∧
    tables_of db w' !! "medals" = Some (to_table (medals_frame medals)).
Proof.
  destruct (returned_Ok (create_app env_example "config.DevelopmentConfig" example_world))
    as (app & w' & Hrun); [vm_compute; reflexivity|].
  destruct (create_app_seeds_tables _ _ _ _ _ Hrun) as (noc & medals & region & H).
  exists app, w', noc, medals, region. split; [exact Hrun|exact H].
Defined.

(** ** The ids of the medals table *)














(** ** The loaders: context, frame and order *)

(** X5: Without an application context the loaders read their file and then
    fail at [db.engine]: nothing is written. *)
Theorem loaders_need_app_context (db_name : SQLAlchemy) (w : World) (noc medals : Csv) :
  app_ctx w = 0 →
  fs w !! noc_regions_csv = Some (Content noc) →
  "region" ∈ header noc →
  fs w !! all_medals_csv = Some (Content medals) →
  add_noc_data db_name w = (Raise RuntimeError, log (EReadCsv noc_regions_csv) w) ∧
  add_medals_data db_name w = (Raise RuntimeError, log (EReadCsv all_medals_csv) w) ∧
  databases (add_noc_data db_name w).2 = databases w ∧
  databases (add_medals_data db_name w).2 = databases w.
Proof.
  intros Hctx Hn Hin Hm.
  assert (add_noc_data db_name w = (Raise RuntimeError, log (EReadCsv noc_regions_csv) w))
    as Hnoc.
  { destruct (region_frame_Some noc Hin) as [df Hdf].
    unfold add_noc_data. rewrite bind_run, read_csv_run.
    change (joinpath _ _) with noc_regions_csv. rewrite Hn. cbn beta iota.
    rewrite bool_decide_eq_true_2 by set_solver.
    unfold region_frame in Hdf. destruct (drop_duplicates _ _); [|discriminate Hdf].
    mstep. rewrite engine_no_context by exact Hctx. reflexivity. }
  assert (add_medals_data db_name w
          = (Raise RuntimeError, log (EReadCsv all_medals_csv) w)) as Hmedals.
  { unfold add_medals_data. rewrite bind_run, read_csv_run.
    change (joinpath _ _) with all_medals_csv. rewrite Hm.
    mstep. rewrite engine_no_context by exact Hctx. reflexivity. }
  rewrite Hnoc, Hmedals. done.
Qed.

Lemma loaders_need_app_context_witness :
  add_noc_data db example_world
    = (Raise RuntimeError, log (EReadCsv noc_regions_csv) example_world) ∧
  add_medals_data db example_world
    = (Raise RuntimeError, log (EReadCsv all_medals_csv) example_world).
Proof.
  destruct (loaders_need_app_context db example_world regions_example medals_example)
    as (Hnoc & Hmedals & _).
  - reflexivity.
  - reflexivity.
  - compute_done.
  - reflexivity.
  - split; [exact Hnoc|exact Hmedals].
Defined.

(** X6: Each loader touches one table: whatever it returns, every other table of
    the database is as it was. *)
Theorem loaders_touch_only_their_table (db_name : SQLAlchemy) (w : World) (name : string) :
  (name ≠ "region" →
   tables_of db (add_noc_data db_name w).2 !! name = tables_of db w !! name) ∧
  (name ≠ "medals" →
   tables_of db (add_medals_data db_name w).2 !! name = tables_of db w !! name).
Proof.
  destruct (add_noc_data_world db_name w) as (r1 & w1 & -> & H1).
  destruct (add_medals_data_world db_name w) as (r2 & w2 & -> & H2).
  split; intros Hne; cbn [snd].
  - destruct H1 as [->|[t ->]]; [done|].
    rewrite tables_of_write, !tables_of_log. by apply lookup_insert_ne.
  - destruct H2 as [->|[t ->]]; [done|].
    rewrite tables_of_write, !tables_of_log. by apply lookup_insert_ne.
Qed.




(** ** The shape of the tables written *)












(** ** More on the wrapping pass *)

Lemma call_config w app1 app2 v req :
  config app1 = config app2 → call w app1 v req = call w app2 v req.
Proof.
  intros Hc. induction v as [m n|func IH]; simpl; [done|]. by rewrite Hc, IH.
Qed.

Lemma call_login_required_twice w app func req :
  call w app (login_required (login_required func)) req
  = call w app (login_required func) req.
Proof.
  simpl. destruct (bool_decide _ || _); [done|]. by destruct (negb _).
Qed.

(** X9: The pass decorates each view whose endpoint starts with the prefix
    exactly once, and keeps the module and the name of every view, which is
    what the exemptions of [csrf] go by. *)
Theorem protect_dash_views_wraps (dash_app : Dash) :
  let dash_app' := _protect_dash_views dash_app in
  (∀ e, String.prefix (routes_pathname_prefix (dash_config dash_app)) e = true →
        view_functions (server dash_app') !! e
          = login_required <$> view_functions (server dash_app) !! e) ∧
  (∀ e, dest <$> view_functions (server dash_app') !! e
          = dest <$> view_functions (server dash_app) !! e).
Proof.
  intros dash_app'. unfold dash_app'. split.
  - intros e He. by rewrite protect_lookup, He.
  - intros e. rewrite protect_lookup.
    destruct (String.prefix _ e); [|done].
    by destruct (view_functions (server dash_app) !! e).
Qed.

(** X10: Running the pass a second time changes no response: a view decorated
    twice answers every request as the view decorated once. *)
Theorem protect_dash_views_twice (dash_app : Dash) (w : World) (e : string) (req : Request) :
  let once := _protect_dash_views dash_app in
  let twice := _protect_dash_views once in
  (λ v, call w (server twice) v req) <$> view_functions (server twice) !! e
  = (λ v, call w (server once) v req) <$> view_functions (server once) !! e.
Proof.
  intros once twice. unfold twice, once.
  assert (∀ v, call w (server (_protect_dash_views (_protect_dash_views dash_app))) v req
               = call w (server (_protect_dash_views dash_app)) v req) as Hcall
    by (intros v; by apply call_config).
  rewrite !protect_lookup.
  change (routes_pathname_prefix (dash_config (_protect_dash_views dash_app)))
    with (routes_pathname_prefix (dash_config dash_app)).
  destruct (String.prefix _ e) eqn:He;
    (destruct (view_functions (server dash_app) !! e) as [v|]; [|done]);
    cbn [fmap option_fmap option_map]; f_equal; rewrite Hcall; [|done].
  apply call_login_required_twice.
Qed.

(** X11: The dashboard is mounted once: on an application that has it,
    [register_dashapp] raises when Dash registers the blueprint of its
    assets, whose name is taken, and returns no application. *)
Theorem register_dashapp_twice_fails
    (env : Env) (app : Flask) (w : World) (app' : Flask) (w' : World) :
  register_dashapp env app w = (Ok app', w') →
  ∃ e, register_dashapp env app' w' = (Raise e, log (EDash "/dashboard/") w').
Proof.
  intros (d & Hd & -> & ->)%register_dashapp_Ok.
  apply new_Dash_Ok in Hd as (_ & _ & Hb & _).
  exists ValueError. rewrite register_dashapp_run.
  assert (new_Dash (server (_protect_dash_views (mounted env d))) "/dashboard/"
          = Raise ValueError) as ->; [|reflexivity].
  unfold new_Dash, register_blueprint.
  change (bp_name _) with "_dashboard_dash_assets".
  change (blueprints (server (_protect_dash_views (mounted env d))))
    with (blueprints (server d)).
  rewrite Hb, decide_True by set_solver. reflexivity.
Qed.

Lemma register_dashapp_twice_fails_witness :
  ∃ app' w' e,
    register_dashapp env_example (new_Flask "paralympics_app") example_world
      = (Ok app', w') ∧
    register_dashapp env_example app' w' = (Raise e, log (EDash "/dashboard/") w').
Proof.
  destruct (returned_Ok (register_dashapp env_example (new_Flask "paralympics_app")
                           example_world)) as (app' & w' & Hrun);
    [vm_compute; reflexivity|].
  destruct (register_dashapp_twice_fails _ _ _ _ _ Hrun) as [e He].
  exists app', w', e. split; [exact Hrun|exact He].
Defined.

(** ** The factory and the database *)

Lemma create_missing_lookup_Some declared tables name t :
  tables !! name = Some t → create_missing declared tables !! name = Some t.
Proof.
  unfold create_missing. revert tables.
  induction declared as [|nc declared IH]; intros tables Ht; [done|].
  cbn [foldl]. apply IH. destruct (tables !! nc.1) eqn:Hnc; [done|].
  rewrite lookup_insert_ne; [done|]. intros Heq. rewrite Heq in Hnc. congruence.
Qed.

Lemma create_missing_declared declared tables nc :
  nc ∈ declared → is_Some (create_missing declared tables !! nc.1).
Proof.
  unfold create_missing. revert tables.
  induction declared as [|nc' declared IH]; intros tables; [by intros ?%elem_of_nil|].
  intros [->|Hin]%elem_of_cons; cbn [foldl]; [|by apply IH].
  destruct (tables !! nc'.1) as [t|] eqn:Hnc.
  - exists t. by apply (create_missing_lookup_Some declared).
  - eexists. apply (create_missing_lookup_Some declared). apply lookup_insert_eq.
Qed.

(** What the second context block does to the tables, whatever it returns:
    the declared tables exist, and a table other than [region] and [medals]
    that was there is as it was. *)
Lemma seed_tables env w :
  0 < app_ctx w →
  (∀ nc, nc ∈ models_metadata env → is_Some (tables_of db (seed env w).2 !! nc.1)) ∧
  (∀ name t, name ≠ "region" → name ≠ "medals" →
     tables_of db w !! name = Some t → tables_of db (seed env w).2 !! name = Some t).
Proof.
  intros Hctx. unfold seed. rewrite bind_run, create_all_run by done. mstep.
  set (w1 := set_tables _ _ _).
  assert (tables_of db w1 = create_missing (models_metadata env) (tables_of db w)) as H1.
  { unfold w1, tables_of, set_tables. simpl. by rewrite lookup_insert_eq. }
  clearbody w1.
  assert (∀ w2, (∃ t, w2 = write 0 "region" t
                          (log (EToSql 0 "region") (log (EReadCsv noc_regions_csv) w1))) ∨
                w2 = log (EReadCsv noc_regions_csv) w1 →
            (∀ nc, nc ∈ models_metadata env → is_Some (tables_of db w2 !! nc.1)) ∧
            (∀ name t, name ≠ "region" → name ≠ "medals" →
               tables_of db w !! name = Some t → tables_of db w2 !! name = Some t)) as Hnoc.
  { intros w2 [[t ->]| ->]; rewrite ?tables_of_write, ?tables_of_log, H1; split.
    - intros nc Hnc. destruct (decide (nc.1 = "region")) as [->|Hne].
      + rewrite lookup_insert_eq. eauto.
      + rewrite lookup_insert_ne by done. by apply create_missing_declared.
    - intros name t' Hr Hm Ht. rewrite lookup_insert_ne by done.
      by apply create_missing_lookup_Some.
    - intros nc Hnc. by apply create_missing_declared.
    - intros name t' Hr Hm Ht. by apply create_missing_lookup_Some. }
  destruct (add_noc_data_world db w1) as (r1 & w2 & -> & Hw2).
  destruct (Hnoc w2) as [Hd2 Hk2]; [destruct Hw2 as [->|[t ->]]; eauto|].
  destruct r1 as [[]|e]; [|done].
  destruct (add_medals_data_world db w2) as (r2 & w3 & -> & Hw3).
  cbn [snd]. destruct Hw3 as [->|[t ->]]; [done|].
  rewrite tables_of_write, !tables_of_log. split.
  - intros nc Hnc. destruct (decide (nc.1 = "medals")) as [->|Hne].
    + rewrite lookup_insert_eq. eauto.
    + rewrite lookup_insert_ne by done. by apply Hd2.
  - intros name t' Hr Hm Ht. rewrite lookup_insert_ne by done. by apply Hk2.
Qed.

(** X12: [create_app] deletes no table but [region] and [medals]: whatever it
    returns, every other table the database held before is still there, with
    the rows it had. *)
Theorem create_app_keeps_other_tables
    (env : Env) (config_class_name : string) (w : World) (name : string) (t : Table) :
  name ≠ "region" → name ≠ "medals" →
  tables_of db w !! name = Some t →
  tables_of db (create_app env config_class_name w).2 !! name = Some t.
Proof.
  intros Hr Hm Ht. rewrite create_app_run.
  destruct (config_objects env !! config_class_name) as [settings|]; [|exact Ht].
  destruct (new_Dash _ _) as [d|e]; [|exact Ht].
  cbn zeta.
  destruct (seed_tables env (before_seed config_class_name w)) as [_ Hkeep];
    [simpl; lia|].
  specialize (Hkeep name t Hr Hm Ht).
  destruct (seed env (before_seed config_class_name w)) as [[[]|e] w2]; [|exact Hkeep].
  destruct (register_blueprint (main_bp env) _) as [app1|e]; [|exact Hkeep].
  exact Hkeep.
Qed.

Lemma create_app_keeps_other_tables_witness :
  tables_of db (create_app env_example "config.DevelopmentConfig" world_with_users).2
    !! "user" = Some users_table.
Proof.
  apply (create_app_keeps_other_tables env_example "config.DevelopmentConfig"
           world_with_users "user" users_table).
  - discriminate.
  - discriminate.
  - reflexivity.
Defined.

(** X13: When [create_app] returns, every table the models declare exists. *)
Theorem create_app_creates_declared_tables
    (env : Env) (config_class_name : string) (w : World) (app : Flask) (w' : World) :
  create_app env config_class_name w = (Ok app, w') →
  ∀ nc, nc ∈ models_metadata env → is_Some (tables_of db w' !! nc.1).
Proof.
  rewrite create_app_run.
  destruct (config_objects env !! config_class_name) as [settings|]; [|discriminate].
  destruct (new_Dash _ _) as [d|e]; [|discriminate].
  cbn zeta.
  destruct (seed_tables env (before_seed config_class_name w)) as [Hdeclared _];
    [simpl; lia|].
  destruct (seed env (before_seed config_class_name w)) as [[[]|e] w2]; [|discriminate].
  destruct (register_blueprint (main_bp env) _) as [app1|e]; [|discriminate].
  intros [= _ <-]. exact Hdeclared.
Qed.

Lemma create_app_creates_declared_tables_witness :
  ∃ app w',
    create_app env_example "config.DevelopmentConfig" example_world = (Ok app, w') ∧
    is_Some (tables_of db w' !! "user").
Proof.
  destruct (returned_Ok (create_app env_example "config.DevelopmentConfig" example_world))
    as (app & w' & Hrun); [vm_compute; reflexivity|].
  exists app, w'. split; [exact Hrun|].
  apply (create_app_creates_declared_tables _ _ _ _ _ Hrun ("user", ["id"; "email"])).
  compute_done.
Defined.

(** ** The factory: what it leaves behind *)

(** X14: No function of the module leaves an application context pushed or
    changes a file, whether it returns or raises. *)
Theorem module_functions_balance_contexts (env : Env) (w : World) :
  (∀ cfg, same_process w (create_app env cfg w).2) ∧
  (∀ app, same_process w (register_dashapp env app w).2) ∧
  (∀ d, same_process w (add_noc_data d w).2) ∧
  (∀ d, same_process w (add_medals_data d w).2).
Proof.
  split; [|split; [|split]].
  - intros cfg.
    destruct (create_app_outcome env cfg w) as (r & w' & done & -> & H & _). exact H.
  - intros app. rewrite register_dashapp_run.
    by destruct (new_Dash app "/dashboard/").
  - intros d. destruct (add_noc_data_world d w) as (r & w' & -> & [->|[t ->]]); done.
  - intros d. destruct (add_medals_data_world d w) as (r & w' & -> & [->|[t ->]]); done.
Qed.

(** X15: A configuration class that cannot be imported: [create_app] raises
    [ImportError] right after creating the application object; no dashboard is
    mounted, no extension initialised and no table touched. *)
Theorem create_app_unknown_config (env : Env) (config_class_name : string) (w : World) :
  config_objects env !! config_class_name = None →
  create_app env config_class_name w
  = (Raise ImportError,
     logs [EFlask "paralympics_app"; EFromObject config_class_name] w).
Proof.
  intros Hcfg. rewrite create_app_run, Hcfg. reflexivity.
Qed.

Lemma create_app_unknown_config_witness :
  create_app env_example "config.Missing" example_world
  = (Raise ImportError,
     logs [EFlask "paralympics_app"; EFromObject "config.Missing"] example_world).
Proof.
  apply (create_app_unknown_config env_example "config.Missing" example_world).
  reflexivity.
Defined.



(** ** The factory: repeated calls and the responses of the application *)

(** X17: Whether [create_app] returns, and what it returns, depends on the package
    and the files, not on the rest of the process: where one call has
    returned, a call in any process with the same files returns the same
    application and the same two tables.  So the factory can be called again
    after it has returned. *)
Theorem create_app_again
    (env : Env) (config_class_name : string) (w1 w2 : World) (app : Flask) (w1' : World) :
  create_app env config_class_name w1 = (Ok app, w1') →
  fs w2 = fs w1 →
  ∃ w2',
    create_app env config_class_name w2 = (Ok app, w2') ∧
    tables_of db w2' !! "region" = tables_of db w1' !! "region" ∧
    tables_of db w2' !! "medals" = tables_of db w1' !! "medals".
Proof.
  intros Hrun Hfs.
  destruct (create_app_outcome env config_class_name w1)
    as (r1 & w1'' & done1 & Hrun1 & _ & _ & _ & H1).
  rewrite Hrun in Hrun1. injection Hrun1 as <- <-.
  destruct H1 as (_ & _ & Hn1 & Hm1 & (noc & medals & region & Hfn & Hfm & Hreg & Hr1 & Hmd1)
                  & settings & d & app1 & Hcfg & Hd & Hmain & Hauth).
  clear Hrun.
  rewrite create_app_run, Hcfg, Hd. cbn zeta.
  destruct (seed_outcome env (before_seed config_class_name w2))
    as (r2 & w2s & k & -> & _ & _ & _ & H2); [simpl; lia|].
  change (fs (before_seed config_class_name w2)) with (fs w2) in H2.
  rewrite Hfs in H2.
  destruct r2 as [[]|e].
  2: { exfalso. destruct H2 as [[_ H2]|(_ & _ & H2)]; congruence. }
  destruct H2 as (_ & _ & _ & noc2 & medals2 & region2 & Hfn2 & Hfm2 & Hreg2 & Hr2 & Hmd2).
  rewrite Hmain. eexists. split; [by rewrite Hauth|].
  assert (noc2 = noc) as -> by congruence.
  assert (medals2 = medals) as -> by congruence.
  assert (region2 = region) as -> by congruence.
  rewrite Hr1, Hmd1. split; [exact Hr2|exact Hmd2].
Qed.

Lemma create_app_again_witness :
  ∃ app w' w'',
    create_app env_example "config.DevelopmentConfig" example_world = (Ok app, w') ∧
    create_app env_example "config.DevelopmentConfig" w' = (Ok app, w'').
Proof.
  destruct (returned_Ok (create_app env_example "config.DevelopmentConfig" example_world))
    as (app & w' & Hrun); [vm_compute; reflexivity|].
  destruct (create_app_again _ _ _ w' _ _ Hrun) as (w'' & Hagain & _).
  { destruct (create_app_outcome env_example "config.DevelopmentConfig" example_world)
      as (r & w0 & done & Hrun0 & (Hfs & _) & _).
    rewrite Hrun in Hrun0. injection Hrun0 as _ <-. exact Hfs. }
  exists app, w', w''. split; [exact Hrun|exact Hagain].
Defined.

Lemma create_app_Ok_config env cfg w app w' settings :
  create_app env cfg w = (Ok app, w') →
  config_objects env !! cfg = Some settings →
  config app = settings ∧ login_view w' = Some "auth.login".
Proof.
  intros Hrun Hcfg.
  destruct (create_app_outcome env cfg w) as (r & w2 & done & Hrun' & _ & _ & _ & Hr).
  rewrite Hrun in Hrun'. injection Hrun' as <- <-.
  destruct Hr as (_ & Hlv & _ & _ & _ & settings' & d & app1 & Hcfg' & Hd & Hmain & Hauth).
  rewrite Hcfg in Hcfg'. injection Hcfg' as <-.
  split; [|exact Hlv].
  apply register_blueprint_Ok in Hmain as (_ & _ & (_ & Hc1 & _) & _).
  apply register_blueprint_Ok in Hauth as (_ & _ & (_ & Hc2 & _) & _).
  apply new_Dash_Ok in Hd as (_ & (_ & Hc0 & _) & _).
  rewrite Hc2, Hc1.
  change (config (with_extensions (server (_protect_dash_views (mounted env d)))))
    with (config (server d)).
  rewrite Hc0. cbn [config set_config]. apply (right_id_L ∅ (∪)).
Qed.

(** X18: The answers of the dashboard in an application [create_app] has
    returned: each view of Dash redirects a request without a session to
    [auth.login], with the address asked for, and serves one with a session;
    it serves every request when the method is one Flask-Login exempts or the
    configuration class sets [LOGIN_DISABLED]. *)
Theorem create_app_dashboard_responses
    (env : Env) (config_class_name : string) (w : World) (app : Flask) (w' : World)
    (settings : gmap string pyval) :
  create_app env config_class_name w = (Ok app, w') →
  config_objects env !! config_class_name = Some settings →
  ∀ r req, r ∈ dash_routes →
    ∃ v name,
      view_functions app !! ("/dashboard/" +:+ r.1.1) = Some v ∧
      r.1.2 = Handler "dash.dash" name ∧
      call w' app v req =
        if bool_decide (method req ∈ EXEMPT_METHODS)
           || from_option truthy false (settings !! "LOGIN_DISABLED")
           || is_authenticated req
        then Served "dash.dash" name
        else Redirect "auth.login" (url req).
Proof.
  intros Hrun Hcfg r req Hr.
  destruct (create_app_Ok_config _ _ _ _ _ _ Hrun Hcfg) as [Hc Hlv].
  destruct (create_app_Ok_views _ _ _ _ _ Hrun) as [_ Hviews].
  clear Hrun.
  exists (login_required r.1.2).
  assert (∃ name, r.1.2 = Handler "dash.dash" name) as [name Hname].
  { unfold dash_routes in Hr. repeat (apply elem_of_cons in Hr as [->|Hr]; [by eexists|]).
    by apply elem_of_nil in Hr. }
  exists name. split; [by apply Hviews|]. split; [exact Hname|].
  rewrite Hname. cbn [call]. rewrite Hc. unfold unauthorized. rewrite Hlv.
  destruct (bool_decide _ || _); [done|]. by destruct (is_authenticated req).
Qed.

Lemma create_app_dashboard_responses_witness :
  ∃ app w' v,
    create_app env_example "config.DevelopmentConfig" example_world = (Ok app, w') ∧
    view_functions app !! "/dashboard/_dash-layout" = Some v ∧
    call w' app v (anonymous_get "/dashboard/_dash-layout")
      = Redirect "auth.login" "/dashboard/_dash-layout".
Proof.
  destruct (returned_Ok (create_app env_example "config.DevelopmentConfig" example_world))
    as (app & w' & Hrun); [vm_compute; reflexivity|].
  destruct (create_app_dashboard_responses _ _ _ _ _ {[ "SECRET_KEY" := PyStr "dev" ]} Hrun
              eq_refl ("_dash-layout", Handler "dash.dash" "serve_layout", ["GET"])
              (anonymous_get "/dashboard/_dash-layout"))
    as (v & name & Hv & _ & Hcall); [compute_done|].
  exists app, w', v. split; [exact Hrun|]. split; [exact Hv|exact Hcall].
Defined.

Lemma register_blueprint_routes bp app app' :
  register_blueprint bp app = Ok app' →
  ∀ rt, rt ∈ deferred bp →
    view_functions app' !! (bp_name bp +:+ "." +:+ rt_endpoint rt) = Some (rt_view rt) ∧
    {| rule := url_prefix bp +:+ rt_rule rt;
       endpoint := bp_name bp +:+ "." +:+ rt_endpoint rt;
       methods := rt_methods rt |} ∈ url_map app'.
Proof.
  unfold register_blueprint. case_decide as Hn; [done|].
  intros (_ & _ & Hall)%add_routes_Ok rt Hrt. apply Hall. set_solver.
Qed.

(** X19: The guard is for the dashboard alone: in an application [create_app] has
    returned, each route of the two blueprints is bound to the view the
    blueprint gives it, as given; the wrapping pass has run before they were
    registered. *)
Theorem create_app_blueprint_views
    (env : Env) (config_class_name : string) (w : World) (app : Flask) (w' : World) :
  create_app env config_class_name w = (Ok app, w') →
  ∀ bp rt, bp ∈ [main_bp env; auth_bp env] → rt ∈ deferred bp →
    view_functions app !! (bp_name bp +:+ "." +:+ rt_endpoint rt) = Some (rt_view rt) ∧
    {| rule := url_prefix bp +:+ rt_rule rt;
       endpoint := bp_name bp +:+ "." +:+ rt_endpoint rt;
       methods := rt_methods rt |} ∈ url_map app.
Proof.
  intros Hrun bp rt Hbp Hrt.
  destruct (create_app_outcome env config_class_name w)
    as (r & w2 & done & Hrun' & _ & _ & _ & Hr).
  rewrite Hrun in Hrun'. injection Hrun' as <- <-.
  destruct Hr as (_ & _ & _ & _ & _ & settings & d & app1 & _ & _ & Hmain & Hauth).
  clear Hrun.
  pose proof (register_blueprint_routes _ _ _ Hmain) as Hm.
  pose proof (register_blueprint_routes _ _ _ Hauth) as Ha.
  apply register_blueprint_Ok in Hauth as (_ & _ & (Hv & _ & _ & Hu) & _).
  apply elem_of_cons in Hbp as [->|Hbp].
  - destruct (Hm rt Hrt) as [Hview Hrule]. split; [by apply Hv|by apply Hu].
  - apply list_elem_of_singleton in Hbp as ->. by apply Ha.
Qed.

Lemma create_app_blueprint_views_witness :
  ∃ app w',
    create_app env_example "config.DevelopmentConfig" example_world = (Ok app, w') ∧
    view_functions app !! "auth.login"
      = Some (Handler "paralympics_app.auth.routes" "login").
Proof.
  destruct (returned_Ok (create_app env_example "config.DevelopmentConfig" example_world))
    as (app & w' & Hrun); [vm_compute; reflexivity|].
  exists app, w'. split; [exact Hrun|].
  destruct (create_app_blueprint_views _ _ _ _ _ Hrun (auth_bp env_example)
              {| rt_rule := "/login"; rt_endpoint := "login";
                 rt_view := Handler "paralympics_app.auth.routes" "login";
                 rt_methods := ["GET"; "POST"] |}) as [Hview _];
    [by right; left|by left|exact Hview].
Defined.



(** ** The routes under the path of the dashboard *)

Lemma add_url_rule_url_map r e v ms app app' :
  add_url_rule r e v ms app = Ok app' →
  url_map app' = url_map app ++ [ {| rule := r; endpoint := e; methods := ms |} ].
Proof.
  unfold add_url_rule. cbn [view_functions set_url_map].
  destruct (view_functions app !! e) as [old|].
  - case_decide; [|done]. by intros [= <-].
  - by intros [= <-].
Qed.

Lemma add_routes_url_map prefix name rts app app' :
  add_routes prefix name rts app = Ok app' →
  url_map app' =
    url_map app ++
    ((λ rt, {| rule := prefix +:+ rt_rule rt; endpoint := name +:+ "." +:+ rt_endpoint rt;
               methods := rt_methods rt |}) <$> rts).
Proof.
  revert app. induction rts as [|rt rts IH]; intros app; simpl.
  { intros [= <-]. by rewrite app_nil_r. }
  intros (app1 & H1 & H2)%result_bind_Ok.
  apply add_url_rule_url_map in H1. rewrite (IH _ H2), H1, <- app_assoc. done.
Qed.

Lemma _setup_routes_url_map prefix rs app app' :
  _setup_routes prefix rs app = Ok app' →
  url_map app' =
    url_map app ++
    ((λ r : string * view * list string,
        {| rule := prefix +:+ r.1.1; endpoint := prefix +:+ r.1.1; methods := r.2 |}) <$> rs).
Proof.
  revert app. induction rs as [|r rs IH]; intros app; simpl.
  { intros [= <-]. by rewrite app_nil_r. }
  intros (app1 & H1 & H2)%result_bind_Ok.
  apply add_url_rule_url_map in H1. rewrite (IH _ H2), H1, <- app_assoc. done.
Qed.

Lemma prefix_append_dot name e : String.prefix (name +:+ ".") (name +:+ "." +:+ e) = true.
Proof.
  induction name as [|a name IH]; simpl.
  - destruct (ascii_dec "." "."); [by destruct e|congruence].
  - destruct (ascii_dec a a); [done|congruence].
Qed.

(** The rules a blueprint adds have endpoints that start with its name. *)
Lemma register_blueprint_url_map bp app app' r :
  register_blueprint bp app = Ok app' →
  r ∈ url_map app' →
  r ∈ url_map app ∨ String.prefix (bp_name bp +:+ ".") (endpoint r) = true.
Proof.
  unfold register_blueprint. case_decide as Hn; [done|].
  intros Hadd%add_routes_url_map. rewrite Hadd. cbn [url_map set_blueprints].
  intros [Hr|(rt & -> & _)%list_elem_of_fmap]%elem_of_app; [by left|right].
  apply prefix_append_dot.
Qed.

(** The rules of an application on which Dash has just been created: those
    it had, the static route of the assets and the routes of Dash. *)
Lemma new_Dash_url_map app d :
  new_Dash app "/dashboard/" = Ok d →
  url_map (server d) =
    url_map app ++
    [ {| rule := "/dashboard/assets/<path:filename>";
         endpoint := "_dashboard_dash_assets.static"; methods := ["GET"] |} ] ++
    ((λ r : string * view * list string,
        {| rule := "/dashboard/" +:+ r.1.1; endpoint := "/dashboard/" +:+ r.1.1;
           methods := r.2 |}) <$> dash_routes).
Proof.
  unfold new_Dash. intros (app1 & H1 & (app2 & H2 & [= <-])%result_bind_Ok)%result_bind_Ok.
  apply _setup_routes_url_map in H2. cbn [server]. rewrite H2.
  unfold register_blueprint in H1. case_decide as Hn; [done|].
  apply add_routes_url_map in H1. rewrite H1, <- app_assoc. reflexivity.
Qed.

(** X21: Which routes under [/dashboard/] answer without a session, in an
    application [create_app] has returned: the static route of the assets of
    Dash, and such routes of the two blueprints as have a path there; every
    other route with a path that starts with [/dashboard/] is bound to a
    decorated view. *)
Theorem create_app_dashboard_paths
    (env : Env) (config_class_name : string) (w : World) (app : Flask) (w' : World) :
  create_app env config_class_name w = (Ok app, w') →
  ∀ r, r ∈ url_map app →
    String.prefix "/dashboard/" (rule r) = true →
    (∃ func, view_functions app !! endpoint r = Some (login_required func)) ∨
    r = {| rule := "/dashboard/assets/<path:filename>";
           endpoint := "_dashboard_dash_assets.static"; methods := ["GET"] |} ∨
    (∃ bp, bp ∈ [main_bp env; auth_bp env] ∧
           String.prefix (bp_name bp +:+ ".") (endpoint r) = true).
Proof.
  intros Hrun r Hr Hpath.
  destruct (create_app_Ok_views _ _ _ _ _ Hrun) as [_ Hviews].
  destruct (create_app_outcome env config_class_name w)
    as (r0 & w2 & done & Hrun' & _ & _ & _ & H).
  rewrite Hrun in Hrun'. injection Hrun' as <- <-.
  destruct H as (_ & _ & _ & _ & _ & settings & d & app1 & _ & Hd & Hmain & Hauth).
  clear Hrun.
  destruct (register_blueprint_url_map _ _ _ r Hauth Hr) as [Hr1|Hbp].
  2: { right; right. exists (auth_bp env). split; [by right; left|done]. }
  destruct (register_blueprint_url_map _ _ _ r Hmain Hr1) as [Hr0|Hbp].
  2: { right; right. exists (main_bp env). split; [by left|done]. }
  change (url_map (with_extensions (server (_protect_dash_views (mounted env d)))))
    with (url_map (server d)) in Hr0.
  rewrite (new_Dash_url_map _ _ Hd) in Hr0. clear Hd Hmain Hauth.
  cbn [url_map set_config new_Flask] in Hr0.
  apply elem_of_app in Hr0 as [Hstatic|Hr0].
  { apply list_elem_of_singleton in Hstatic as ->. discriminate Hpath. }
  apply elem_of_app in Hr0 as [Hassets|Hdash].
  { apply list_elem_of_singleton in Hassets. right; left. exact Hassets. }
  apply list_elem_of_fmap in Hdash as (dr & -> & Hdr). left.
  exists dr.1.2. cbn [endpoint]. by apply Hviews.
Qed.

Lemma create_app_dashboard_paths_witness :
  ∃ app w',
    create_app env_example "config.DevelopmentConfig" example_world = (Ok app, w') ∧
    ∀ r, r ∈ url_map app →
      String.prefix "/dashboard/" (rule r) = true →
      (∃ func, view_functions app !! endpoint r = Some (login_required func)) ∨
      r = {| rule := "/dashboard/assets/<path:filename>";
             endpoint := "_dashboard_dash_assets.static"; methods := ["GET"] |} ∨
      (∃ bp, bp ∈ [main_bp env_example; auth_bp env_example] ∧
             String.prefix (bp_name bp +:+ ".") (endpoint r) = true).
Proof.
  destruct (returned_Ok (create_app env_example "config.DevelopmentConfig" example_world))
    as (app & w' & Hrun); [vm_compute; reflexivity|].
  exists app, w'. split; [exact Hrun|].
  exact (create_app_dashboard_paths _ _ _ _ _ Hrun).
Defined.

(** ** Lines added at the end of a file *)








